(** * gokrb5: client transport and KDC reply validation

    A shallow embedding of package client (SendToKDC, sendUDP, sendTCP,
    checkForKRBError) and of the KDC-REP part of package messages
    (EncKDCRepPart.Unmarshal, ASRep.DecryptEncPart, ASRep.IsValid,
    TGSRep.DecryptEncPart, TGSRep.IsValid), both in [client/network.go].

    Conventions.
    - A Go [int] is a [Z]; only comparisons are made on them here.
    - A [[]byte] is a [list byte].  A slice whose nil-ness the code tests
      is an [option (list _)], [None] being the nil slice.
    - A Go function returning [(T, error)] returns [T * option error].
    - A run-time panic (index or slice bounds out of range) is the
      [Panic] outcome.
    - Packages of the repository that the two files import (asn1, crypto,
      credentials, types, the socket layer) are collaborators: they are
      fields of the records [Network] and [Collaborators]. *)

From Stdlib Require Import ZArith List String Bool Lia Arith.
From Stdlib.Strings Require Import Byte.
Import ListNotations.
Local Open Scope string_scope.
Local Open Scope list_scope.
Local Open Scope Z_scope.

Set Implicit Arguments.

(** ** Outcomes, errors *)

Definition bytes := list byte.

Inductive outcome (A : Type) : Type :=
| Ret (a : A)
| Panic.
Arguments Panic {A}.

(** messages.KRBError; only the error code is read by the code at hand. *)
Record KRBError := mkKRBError {
  ErrorCode : Z;
  EText : string
}.

(** Every [error] value the two files build, one constructor per
    [fmt.Errorf]/[errors.New] site; [ErrExt] is an error handed back by a
    collaborator, [ErrKRB] is a [messages.KRBError] used as an [error]. *)
Inductive error : Type :=
| ErrExt (msg : string)
| ErrKRB (k : KRBError)
| ErrNoKDCs (realm : string)
| ErrTCPOnly (kdc : string) (errtcp : error)
| ErrUDPThenTCP (kdc : string) (errudp errtcp : error)
| ErrTooBigThenTCP (kdc : string) (errtcp : error)
| ErrTCPThenUDP (kdc : string) (errtcp errudp : error)
| ErrNoResponse (kdc : string)
| ErrResolve (e : error)
| ErrDial (e : error)
| ErrSend (e : error)
| ErrUDPRead (e : error)
| ErrTCPRead (e : error)
| ErrKeytab (e : error)
| ErrPassword (e : error)
| ErrNoSecret
| ErrDecrypt (e : error)
| ErrUnmarshalEnc (e : error)
| ErrCName
| ErrCRealm
| ErrDecryptASRep (e : error)
| ErrReplay
| ErrSName
| ErrTicketSName
| ErrSRealm
| ErrAddresses
| ErrClockSkew
| ErrFASTNegotiation
| ErrFASTUnmarshal (e : error)
| ErrFASTChksumEtype (e : error)
| ErrFASTChecksum.

(** ** Configuration (package config, as the code reads it) *)

Record Realm := mkRealm {
  Realm_name : string;
  Kdc : list string
}.

Record Config := mkConfig {
  Default_realm : string;
  Udp_preference_limit : Z;
  Clockskew : Z;              (* time.Duration, nanoseconds *)
  Realms : list Realm
}.

(** Modelled from the spec: errorcode.KRB_ERR_RESPONSE_TOO_BIG, the
    constant of package iana/errorcode, "Error code used for fallback:
    KRB_ERR_RESPONSE_TOO_BIG=52". *)
Definition KRB_ERR_RESPONSE_TOO_BIG : Z := 52.

(** ** The transport: package client *)

Module Transport.

(** What one UDP exchange meets at the socket layer, in the order
    sendUDP makes its calls. [UDPRead data err] is [conn.ReadFrom]
    filling the buffer with [data] and returning [err]. *)
Inductive UDPRun :=
| UDPResolveFails (e : error)
| UDPDialFails (e : error)
| UDPWriteFails (e : error)
| UDPRead (data : bytes) (err : option error).

Inductive TCPRun :=
| TCPResolveFails (e : error)
| TCPDialFails (e : error)
| TCPWriteFails (e : error)
| TCPRead (data : bytes) (err : option error).

(** The calls SendToKDC makes, oldest first. [CallTCP] records the bytes
    written to the stream, that is the framed request. *)
Inductive Event :=
| CallUDP (kdc : string) (b : bytes)
| CallTCP (kdc : string) (framed : bytes).

Definition trace := list Event.

(** The world outside: the sockets (whose answer may depend on what was
    sent before), the process-wide PRNG and the KRB-ERROR decoder. *)
Record Network := mkNetwork {
  udp_run : trace -> string -> bytes -> UDPRun;
  tcp_run : trace -> string -> bytes -> TCPRun;
  rand_Intn : Z -> Z;
  KRBError_Unmarshal : bytes -> option KRBError
}.

(** State passing: a computation reads and extends the trace, and may
    panic. *)
Definition M (A : Type) : Type := trace -> outcome A * trace.

Definition ret {A} (a : A) : M A := fun t => (Ret a, t).

Definition bind {A B} (m : M A) (f : A -> M B) : M B :=
  fun t => match m t with
           | (Ret a, t') => f a t'
           | (Panic, t') => (Panic, t')
           end.

Definition panic {A} : M A := fun t => (Panic, t).

Definition log (e : Event) : M unit := fun t => (Ret tt, t ++ [e]).

Definition history : M trace := fun t => (Ret t, t).

Notation "x <- m ;; k" := (bind m (fun x => k))
  (at level 61, m at next level, right associativity).
Notation "' pat <- m ;; k" := (bind m (fun x => match x with pat => k end))
  (at level 61, pat pattern, m at next level, right associativity).

(** The size of the read buffers, [make([]byte, 4096)]. *)
Definition bufsize : nat := 4096.

(** [binary.Write(&buf, binary.BigEndian, uint32(len(b)))]: the length,
    truncated to 32 bits, most significant octet first. *)
Definition octet (z : Z) : byte :=
  match Byte.of_N (Z.to_N (z mod 256)) with
  | Some c => c
  | None => x00
  end.

Definition uint32 (z : Z) : Z := z mod 2 ^ 32.

Definition BigEndian_uint32 (z : Z) : bytes :=
  [ octet (Z.shiftr z 24); octet (Z.shiftr z 16);
    octet (Z.shiftr z 8); octet z ].

Definition len {A} (l : list A) : Z := Z.of_nat (List.length l).

Section WithNetwork.

Variable net : Network.

(** func checkForKRBError(b []byte) ([]byte, error) *)
Definition checkForKRBError (b : bytes) : bytes * option error :=
  match KRBError_Unmarshal net b with
  | Some KRBErr => (b, Some (ErrKRB KRBErr))
  | None => (b, None)
  end.

(** func sendUDP(kdc string, b []byte) ([]byte, error) *)
Definition sendUDP (kdc : string) (b : bytes) : M (bytes * option error) :=
  h <- history ;;
  _ <- log (CallUDP kdc b) ;;
  let r : bytes := [] in
  match udp_run net h kdc b with
  | UDPResolveFails err => ret (r, Some (ErrResolve err))
  | UDPDialFails err => ret (r, Some (ErrDial err))
  | UDPWriteFails err => ret (r, Some (ErrSend err))
  | UDPRead data err =>
      (* r = udpbuf[:n] *)
      let r := firstn bufsize data in
      match err with
      | Some err => ret (r, Some (ErrUDPRead err))
      | None => ret (checkForKRBError r)
      end
  end.

(** [r[4:]] on a slice of length [len r]: Go panics when 4 > len(r). *)
Definition slice_from (n : nat) (r : bytes) : M bytes :=
  if (List.length r <? n)%nat then panic else ret (skipn n r).

(** func sendTCP(kdc string, b []byte) ([]byte, error) *)
Definition sendTCP (kdc : string) (b : bytes) : M (bytes * option error) :=
  h <- history ;;
  let r : bytes := [] in
  let framed := BigEndian_uint32 (uint32 (len b)) ++ b in
  _ <- log (CallTCP kdc framed) ;;
  match tcp_run net h kdc framed with
  | TCPResolveFails err => ret (r, Some (ErrResolve err))
  | TCPDialFails err => ret (r, Some (ErrDial err))
  | TCPWriteFails err => ret (r, Some (ErrSend err))
  | TCPRead data err =>
      match err with
      | Some err => ret (r, Some (ErrTCPRead err))
      | None =>
          (* r = tcpbuf[:n] *)
          let r := firstn bufsize data in
          payload <- slice_from 4 r ;;
          ret (checkForKRBError payload)
      end
  end.

(** The loop over cl.Config.Realms: the Kdc list of the first realm
    named Default_realm, the nil slice when there is none. *)
Fixpoint select_kdcs (realms : list Realm) (default_realm : string)
  : list string :=
  match realms with
  | [] => []
  | r :: rest =>
      if String.eqb (Realm_name r) default_realm then Kdc r
      else select_kdcs rest default_realm
  end.

(** [kdcs[i]], panicking out of range. *)
Definition index_kdc (kdcs : list string) (i : Z) : M string :=
  if i <? 0 then panic
  else match nth_error kdcs (Z.to_nat i) with
       | Some k => ret k
       | None => panic
       end.

(** func (cl *Client) SendToKDC(b []byte) ([]byte, error).
    The three [rb, err := ...] inside nested blocks declare new
    variables: after such a block the [rb] of the enclosing block is
    read again. *)
Definition SendToKDC (cfg : Config) (b : bytes) : M (bytes * option error) :=
  let rb : bytes := [] in
  let kdcs := select_kdcs (Realms cfg) (Default_realm cfg) in
  if len kdcs <? 1 then ret (rb, Some (ErrNoKDCs (Default_realm cfg)))
  else
    kdc <- (if 1 <? len kdcs
            then index_kdc kdcs (rand_Intn net (len kdcs))
            else index_kdc kdcs 0) ;;
    if Udp_preference_limit cfg =? 1 then
      '(rb, errtcp) <- sendTCP kdc b ;;
      match errtcp with
      | Some errtcp => ret (rb, Some (ErrTCPOnly kdc errtcp))
      | None =>
          if len rb <? 1 then ret (rb, Some (ErrNoResponse kdc))
          else ret (checkForKRBError rb)
      end
    else if len b <=? Udp_preference_limit cfg then
      '(rb, errudp) <- sendUDP kdc b ;;
      (* if errudp != nil { rb, errtcp := sendTCP(kdc, b); ... } *)
      early <- match errudp with
               | Some errudp =>
                   '(rb', errtcp) <- sendTCP kdc b ;;
                   match errtcp with
                   | Some errtcp =>
                       ret (Some (rb', Some (ErrUDPThenTCP kdc errudp errtcp)))
                   | None => ret None
                   end
               | None => ret None
               end ;;
      match early with
      | Some res => ret res
      | None =>
          (* if err := KRBErr.Unmarshal(rb); err == nil { ... } *)
          early <- match KRBError_Unmarshal net rb with
                   | Some KRBErr =>
                       if ErrorCode KRBErr =? KRB_ERR_RESPONSE_TOO_BIG then
                         '(rb', errtcp) <- sendTCP kdc b ;;
                         match errtcp with
                         | Some errtcp =>
                             ret (Some (rb', Some (ErrTooBigThenTCP kdc errtcp)))
                         | None => ret None
                         end
                       else ret None
                   | None => ret None
                   end ;;
          match early with
          | Some res => ret res
          | None =>
              if len rb <? 1 then ret (rb, Some (ErrNoResponse kdc))
              else ret (checkForKRBError rb)
          end
      end
    else
      '(rb, errtcp) <- sendTCP kdc b ;;
      early <- match errtcp with
               | Some errtcp =>
                   '(rb', errudp) <- sendUDP kdc b ;;
                   match errudp with
                   | Some errudp =>
                       ret (Some (rb', Some (ErrTCPThenUDP kdc errtcp errudp)))
                   | None => ret None
                   end
               | None => ret None
               end ;;
      match early with
      | Some res => ret res
      | None =>
          if len rb <? 1 then ret (rb, Some (ErrNoResponse kdc))
          else ret (checkForKRBError rb)
      end.

End WithNetwork.

End Transport.

(** ** Data model: packages types and messages *)

(** A time.Time is an instant: its position on the time line in
    nanoseconds. [UTC()] changes the zone it is printed in, not the
    instant. A time.Duration is a 64-bit count of nanoseconds. *)
Definition Time := Z.
Definition Duration := Z.

Definition minDuration : Duration := - 2 ^ 63.
Definition maxDuration : Duration := 2 ^ 63 - 1.
Definition Second : Duration := 1000000000.

(** func (t Time) Sub(u Time) Duration: t-u, and the largest (smallest)
    Duration when t-u does not fit in one. *)
Definition Time_Sub (t u : Time) : Duration :=
  let d := t - u in
  if d <? minDuration then minDuration
  else if maxDuration <? d then maxDuration
  else d.

(** The successive readings of [time.Now()] during one call. *)
Definition Clock := nat -> Time.

Module types.

Record PrincipalName := mkPrincipalName {
  NameType : Z;
  NameString : option (list string)
}.

Record EncryptedData := mkEncryptedData {
  EType : Z;
  KVNO : Z;
  Cipher : bytes
}.

Record EncryptionKey := mkEncryptionKey {
  KeyType : Z;
  KeyValue : bytes
}.

Record PAData := mkPAData {
  PADataType : Z;
  PADataValue : bytes
}.

Definition PADataSequence := list PAData.

Record HostAddress := mkHostAddress {
  AddrType : Z;
  Address : bytes
}.

Record BitString := mkBitString {
  Bytes : bytes;
  BitLength : Z
}.

Record PAReqEncPARep := mkPAReqEncPARep {
  ChksumType : Z;
  Chksum : bytes
}.

End types.

Import types.

Record LastReq := mkLastReq {
  LRType : Z;
  LRValue : Time
}.

Module Ticket.
Record t := mk {
  TktVNO : Z;
  Realm : string;
  SName : PrincipalName;
  EncPart : EncryptedData
}.
End Ticket.

Module EncKDCRepPart.
Record t := mk {
  Key : EncryptionKey;
  LastReqs : list LastReq;
  Nonce : Z;
  KeyExpiration : Time;
  Flags : BitString;
  AuthTime : Time;
  StartTime : Time;
  EndTime : Time;
  RenewTill : Time;
  SRealm : string;
  SName : PrincipalName;
  CAddr : list HostAddress;
  EncPAData : PADataSequence
}.
End EncKDCRepPart.

Module KDCRepFields.
Record t := mk {
  PVNO : Z;
  MsgType : Z;
  PAData : list types.PAData;
  CRealm : string;
  CName : PrincipalName;
  Ticket : Ticket.t;
  EncPart : EncryptedData;
  DecryptedEncPart : EncKDCRepPart.t
}.

(** [k.DecryptedEncPart = denc] *)
Definition set_DecryptedEncPart (k : t) (denc : EncKDCRepPart.t) : t :=
  mk (PVNO k) (MsgType k) (PAData k) (CRealm k) (CName k) (Ticket k)
     (EncPart k) denc.
End KDCRepFields.

(** type ASRep struct { KDCRepFields }; type TGSRep struct { KDCRepFields } *)
Definition ASRep := KDCRepFields.t.
Definition TGSRep := KDCRepFields.t.

(** The request, as far as validation reads it. *)
Module KDCReqBody.
Record t := mk {
  CName : PrincipalName;
  Realm : string;
  SName : PrincipalName;
  Nonce : Z;
  Addresses : list HostAddress
}.
End KDCReqBody.

Module KDCReqFields.
Record t := mk {
  PAData : PADataSequence;
  ReqBody : KDCReqBody.t
}.
End KDCReqFields.

Definition ASReq := KDCReqFields.t.
Definition TGSReq := KDCReqFields.t.

(** The zero values [var key types.EncryptionKey] and
    [var denc EncKDCRepPart] start from. *)
Definition zero_PrincipalName : PrincipalName := mkPrincipalName 0 None.
Definition zero_EncryptionKey : EncryptionKey := mkEncryptionKey 0 [].
Definition zero_EncKDCRepPart : EncKDCRepPart.t :=
  EncKDCRepPart.mk zero_EncryptionKey [] 0 0 (mkBitString [] 0) 0 0 0 0
    "" zero_PrincipalName [] [].

(** Modelled from the spec: the constants of packages iana/asnAppTag and
    iana/keyusage, "Application tags used: EncASRepPart=25,
    EncTGSRepPart=26" and "Key usages used: AS_REP_ENCPART=8,
    TGS_REP_ENCPART_SESSION_KEY=8, KEY_USAGE_AS_REQ=56". *)
Definition asnAppTag_EncASRepPart : Z := 25.
Definition asnAppTag_EncTGSRepPart : Z := 26.
Definition keyusage_AS_REP_ENCPART : Z := 8.
Definition keyusage_TGS_REP_ENCPART_SESSION_KEY : Z := 8.
Definition keyusage_KEY_USAGE_AS_REQ : Z := 56.

(** The collaborators of package messages: the credentials store, the
    crypto library, the ASN.1 codec, helpers of package types and the
    IANA numbers the spec does not give. A Go function returning
    [(T, error)] hands back both components. The decoder of the
    encrypted part works on the [EncKDCRepPart] it is given, as
    [asn1.UnmarshalWithParams(b, e, params)] does. *)
Record Collaborators := mkCollaborators {
  Credentials : Type;
  ETypeImpl : Type;
  HasKeytab : Credentials -> bool;
  HasPassword : Credentials -> bool;
  Password : Credentials -> string;
  Keytab_GetEncryptionKey :
    Credentials -> option (list string) -> string -> Z -> Z ->
    EncryptionKey * option error;
  GetKeyFromPassword :
    string -> PrincipalName -> string -> Z -> list types.PAData ->
    EncryptionKey * option error;
  crypto_DecryptEncPart :
    EncryptedData -> EncryptionKey -> Z -> bytes * option error;
  asn1_UnmarshalWithParams :
    bytes -> EncKDCRepPart.t -> Z -> EncKDCRepPart.t * option error;
  HostAddressesEqual : list HostAddress -> list HostAddress -> bool;
  PADataSequence_Contains : PADataSequence -> Z -> bool;
  IsFlagSet : BitString -> Z -> bool;
  PAReqEncPARep_Unmarshal : bytes -> PAReqEncPARep * option error;
  GetChksumEtype : Z -> ETypeImpl * option error;
  ASReq_Marshal : ASReq -> bytes * option error;
  VerifyChecksum : bytes -> bytes -> bytes -> Z -> ETypeImpl -> bool;
  patype_PA_REQ_ENC_PA_REP : Z;
  patype_PA_FX_FAST : Z;
  types_EncPARep : Z
}.

(** ** Reply decryption and validation: package messages *)

Module Messages.

Import KDCRepFields.

(** A nil slice has no elements; [range] over it does nothing. *)
Definition elems {A} (s : option (list A)) : list A :=
  match s with
  | Some l => l
  | None => []
  end.

Definition is_nil {A} (s : option (list A)) : bool :=
  match s with
  | Some _ => false
  | None => true
  end.

(** The indices [for i := range s] goes through. *)
Definition range {A} (s : option (list A)) : list nat :=
  seq 0 (List.length (elems s)).

(** [for i := range ... { if a[i] != b[i] { return false, ... } }]:
    [Ret true] when some visited index holds different strings,
    [Ret false] when the loop runs to its end, [Panic] when an index is
    out of range in [a] or in [b] before a difference is met. *)
Fixpoint differ_at (idx : list nat) (a b : list string) : outcome bool :=
  match idx with
  | [] => Ret false
  | i :: rest =>
      match nth_error a i with
      | None => Panic
      | Some x =>
          match nth_error b i with
          | None => Panic
          | Some y =>
              if String.eqb x y then differ_at rest a b else Ret true
          end
      end
  end.

(** [x > skew] on Durations. *)
Definition exceeds (d skew : Duration) : bool := skew <? d.

(** A clock that stands still at [t] while a call runs. *)
Definition clock_at (t : Time) : Clock := fun _ => t.

Section WithCollaborators.

Variable X : Collaborators.

(** func (e *EncKDCRepPart) Unmarshal(b []byte) error, on the value [e]
    points to. *)
Definition EncKDCRepPart_Unmarshal (e : EncKDCRepPart.t) (b : bytes)
  : EncKDCRepPart.t * option error :=
  let '(e, err) := asn1_UnmarshalWithParams X b e asnAppTag_EncASRepPart in
  match err with
  | Some _ =>
      (* Try using tag 26 *)
      asn1_UnmarshalWithParams X b e asnAppTag_EncTGSRepPart
  | None => (e, err)
  end.

(** func (k *ASRep) DecryptEncPart(c *credentials.Credentials)
      (types.EncryptionKey, error).
    The result carries the reply as the call leaves it. *)
Definition ASRep_DecryptEncPart (c : Credentials X) (k : ASRep)
  : (EncryptionKey * option error) * ASRep :=
  let key := zero_EncryptionKey in
  let '(key, err) :=
    if HasKeytab X c
    then Keytab_GetEncryptionKey X c (NameString (CName k)) (CRealm k)
           (KVNO (EncPart k)) (EType (EncPart k))
    else (key, None) in
  match err with
  | Some err => ((key, Some (ErrKeytab err)), k)
  | None =>
      let '(key, err) :=
        if HasPassword X c
        then GetKeyFromPassword X (Password X c) (CName k) (CRealm k)
               (EType (EncPart k)) (PAData k)
        else (key, None) in
      match err with
      | Some err => ((key, Some (ErrPassword err)), k)
      | None =>
          if negb (HasKeytab X c) && negb (HasPassword X c)
          then ((key, Some ErrNoSecret), k)
          else
            let '(b, err) :=
              crypto_DecryptEncPart X (EncPart k) key keyusage_AS_REP_ENCPART in
            match err with
            | Some err => ((key, Some (ErrDecrypt err)), k)
            | None =>
                let '(denc, err) :=
                  EncKDCRepPart_Unmarshal zero_EncKDCRepPart b in
                match err with
                | Some err => ((key, Some (ErrUnmarshalEnc err)), k)
                | None => ((key, None), set_DecryptedEncPart k denc)
                end
            end
      end
  end.

(** func (k *TGSRep) DecryptEncPart(key types.EncryptionKey) error *)
Definition TGSRep_DecryptEncPart (key : EncryptionKey) (k : TGSRep)
  : option error * TGSRep :=
  let '(b, err) :=
    crypto_DecryptEncPart X (EncPart k) key
      keyusage_TGS_REP_ENCPART_SESSION_KEY in
  match err with
  | Some err => (Some (ErrDecrypt err), k)
  | None =>
      let '(denc, err) := EncKDCRepPart_Unmarshal zero_EncKDCRepPart b in
      match err with
      | Some err => (Some (ErrUnmarshalEnc err), k)
      | None => (None, set_DecryptedEncPart k denc)
      end
  end.

(** The body of [for _, pa := range k.DecryptedEncPart.EncPAData] in
    ASRep.IsValid: the error of the first entry of type
    PA_REQ_ENC_PA_REP that fails, none when the loop runs to its end. *)
Fixpoint fast_loop (key : EncryptionKey) (asReq : ASReq)
    (pas : list types.PAData) : option error :=
  match pas with
  | [] => None
  | pa :: rest =>
      if PADataType pa =? patype_PA_REQ_ENC_PA_REP X then
        let '(pafast, err) := PAReqEncPARep_Unmarshal X (PADataValue pa) in
        match err with
        | Some err => Some (ErrFASTUnmarshal err)
        | None =>
            let '(etype, err) := GetChksumEtype X (ChksumType pafast) in
            match err with
            | Some err => Some (ErrFASTChksumEtype err)
            | None =>
                let '(ab, _) := ASReq_Marshal X asReq in
                if negb (VerifyChecksum X (KeyValue key) (Chksum pafast) ab
                           keyusage_KEY_USAGE_AS_REQ etype)
                then Some ErrFASTChecksum
                else fast_loop key asReq rest
            end
        end
      else fast_loop key asReq rest
  end.

Definition verdict := (bool * option error)%type.

(** func (k *ASRep) IsValid(cfg *config.Config,
      creds *credentials.Credentials, asReq ASReq) (bool, error).
    [clk] gives the readings of the clock; the reply comes back as the
    call leaves it. *)
Definition ASRep_IsValid (clk : Clock) (cfg : Config) (creds : Credentials X)
    (asReq : ASReq) (k : ASRep) : outcome verdict * ASRep :=
  let body := KDCReqFields.ReqBody asReq in
  if negb (NameType (CName k) =? NameType (KDCReqBody.CName body))
     || is_nil (NameString (CName k))
  then (Ret (false, Some ErrCName), k)
  else
  match differ_at (range (NameString (CName k)))
          (elems (NameString (CName k)))
          (elems (NameString (KDCReqBody.CName body))) with
  | Panic => (Panic, k)
  | Ret true => (Ret (false, Some ErrCName), k)
  | Ret false =>
  if negb (String.eqb (CRealm k) (KDCReqBody.Realm body))
  then (Ret (false, Some ErrCRealm), k)
  else
  let '((key, err), k) := ASRep_DecryptEncPart creds k in
  match err with
  | Some err => (Ret (false, Some (ErrDecryptASRep err)), k)
  | None =>
  let enc := DecryptedEncPart k in
  if negb (EncKDCRepPart.Nonce enc =? KDCReqBody.Nonce body)
  then (Ret (false, Some ErrReplay), k)
  else
  if negb (NameType (EncKDCRepPart.SName enc)
           =? NameType (KDCReqBody.SName body))
     || is_nil (NameString (EncKDCRepPart.SName enc))
  then (Ret (false, Some ErrSName), k)
  else
  match differ_at (range (NameString (CName k)))
          (elems (NameString (EncKDCRepPart.SName enc)))
          (elems (NameString (KDCReqBody.SName body))) with
  | Panic => (Panic, k)
  | Ret true => (Ret (false, Some ErrSName), k)
  | Ret false =>
  if negb (String.eqb (EncKDCRepPart.SRealm enc) (KDCReqBody.Realm body))
  then (Ret (false, Some ErrSRealm), k)
  else
  if (0 <? Transport.len (KDCReqBody.Addresses body))
     && negb (HostAddressesEqual X (EncKDCRepPart.CAddr enc)
                (KDCReqBody.Addresses body))
  then (Ret (false, Some ErrAddresses), k)
  else
  let t := clk 0%nat in
  if exceeds (Time_Sub t (EncKDCRepPart.AuthTime enc)) (Clockskew cfg)
     || exceeds (Time_Sub (EncKDCRepPart.AuthTime enc) t) (Clockskew cfg)
  then (Ret (false, Some ErrClockSkew), k)
  else
  if PADataSequence_Contains X (KDCReqFields.PAData asReq)
       (patype_PA_REQ_ENC_PA_REP X)
     && IsFlagSet X (EncKDCRepPart.Flags enc) (types_EncPARep X)
  then
    if (Transport.len (EncKDCRepPart.EncPAData enc) <? 2)
       || negb (PADataSequence_Contains X (EncKDCRepPart.EncPAData enc)
                  (patype_PA_FX_FAST X))
    then (Ret (false, Some ErrFASTNegotiation), k)
    else
      match fast_loop key asReq (EncKDCRepPart.EncPAData enc) with
      | Some err => (Ret (false, Some err), k)
      | None => (Ret (true, None), k)
      end
  else (Ret (true, None), k)
  end end end.

(** [time.Since(x) > skew || x.Sub(time.Now().UTC()) > skew], as it
    stands twice in TGSRep.IsValid: the first operand reads the clock,
    the second reads it again and only when the first is false. [n]
    counts the readings made so far. *)
Definition skew_exceeded (clk : Clock) (skew : Duration) (x : Time) (n : nat)
  : bool * nat :=
  if exceeds (Time_Sub (clk n) x) skew then (true, S n)
  else (exceeds (Time_Sub x (clk (S n))) skew, S (S n)).

(** func (k *TGSRep) IsValid(cfg *config.Config, tgsReq TGSReq)
      (bool, error) *)
Definition TGSRep_IsValid (clk : Clock) (cfg : Config) (tgsReq : TGSReq)
    (k : TGSRep) : outcome verdict :=
  let body := KDCReqFields.ReqBody tgsReq in
  let enc := DecryptedEncPart k in
  if negb (NameType (CName k) =? NameType (KDCReqBody.CName body))
     || is_nil (NameString (CName k))
  then Ret (false, Some ErrCName)
  else
  match differ_at (range (NameString (CName k)))
          (elems (NameString (CName k)))
          (elems (NameString (KDCReqBody.CName body))) with
  | Panic => Panic
  | Ret true => Ret (false, Some ErrCName)
  | Ret false =>
  if negb (String.eqb (CRealm k) (KDCReqBody.Realm body))
  then Ret (false, Some ErrCRealm)
  else
  if negb (EncKDCRepPart.Nonce enc =? KDCReqBody.Nonce body)
  then Ret (false, Some ErrReplay)
  else
  if negb (NameType (Ticket.SName (Ticket k))
           =? NameType (KDCReqBody.SName body))
     || is_nil (NameString (Ticket.SName (Ticket k)))
  then Ret (false, Some ErrTicketSName)
  else
  match differ_at (range (NameString (Ticket.SName (Ticket k))))
          (elems (NameString (Ticket.SName (Ticket k))))
          (elems (NameString (KDCReqBody.SName body))) with
  | Panic => Panic
  | Ret true => Ret (false, Some ErrTicketSName)
  | Ret false =>
  if negb (NameType (EncKDCRepPart.SName enc)
           =? NameType (KDCReqBody.SName body))
     || is_nil (NameString (EncKDCRepPart.SName enc))
  then Ret (false, Some ErrSName)
  else
  match differ_at (range (NameString (CName k)))
          (elems (NameString (EncKDCRepPart.SName enc)))
          (elems (NameString (KDCReqBody.SName body))) with
  | Panic => Panic
  | Ret true => Ret (false, Some ErrSName)
  | Ret false =>
  if negb (String.eqb (EncKDCRepPart.SRealm enc) (KDCReqBody.Realm body))
  then Ret (false, Some ErrSRealm)
  else
  if (0 <? Transport.len (KDCReqBody.Addresses body))
     && negb (HostAddressesEqual X (EncKDCRepPart.CAddr enc)
                (KDCReqBody.Addresses body))
  then Ret (false, Some ErrAddresses)
  else
  let '(out1, n) :=
    skew_exceeded clk (Clockskew cfg) (EncKDCRepPart.StartTime enc) 0 in
  if out1 then
    let '(out2, _) :=
      skew_exceeded clk (Clockskew cfg) (EncKDCRepPart.AuthTime enc) n in
    if out2 then Ret (false, Some ErrClockSkew) else Ret (true, None)
  else Ret (true, None)
  end end end.

End WithCollaborators.

End Messages.

(** ** Test doubles

    Concrete collaborators, in the manner of the fakes a Go test of
    these two files would set up: a KDC that answers over UDP and TCP, a
    toy KRB-ERROR decoder, a toy codec and crypto library. They serve to
    run the code above on explicit inputs. *)

Module Fixture.

Import Transport.

Definition kdc1 : string := "kdc.example.com:88".

Definition T0 : Time := 1700000000 * Second.

(** default_realm EXAMPLE.COM, one KDC, udp_preference_limit 1500,
    clockskew 300s. *)
Definition cfg_udp : Config :=
  mkConfig "EXAMPLE.COM" 1500 (300 * Second) [mkRealm "EXAMPLE.COM" [kdc1]].

(** The same with udp_preference_limit 1: TCP only. *)
Definition cfg_tcp : Config :=
  mkConfig "EXAMPLE.COM" 1 (300 * Second) [mkRealm "EXAMPLE.COM" [kdc1]].

Definition request : bytes := [x6a; x03; x01; x02; x03].

Definition framed_request : bytes := [x00; x00; x00; x05] ++ request.

(** Toy KRB-ERROR decoder: octet 0x7e (application tag 30) followed by
    the error code. *)
Definition toy_KRBError_Unmarshal (b : bytes) : option KRBError :=
  match b with
  | x7e :: c :: _ => Some (mkKRBError (Z.of_N (Byte.to_N c)) "")
  | _ => None
  end.

Definition too_big : bytes := [x7e; x34].
Definition principal_unknown : bytes := [x7e; x06].
Definition tcp_payload : bytes := [x6b; x01].
Definition tcp_reply : bytes := [x00; x00; x00; x02] ++ tcp_payload.

(** UDP answers KRB_ERR_RESPONSE_TOO_BIG, TCP answers a reply. *)
Definition net_too_big : Network :=
  mkNetwork (fun _ _ _ => UDPRead too_big None)
            (fun _ _ _ => TCPRead tcp_reply None)
            (fun _ => 0) toy_KRBError_Unmarshal.

(** UDP answers KRB-ERROR 6, TCP answers a reply. *)
Definition net_unknown : Network :=
  mkNetwork (fun _ _ _ => UDPRead principal_unknown None)
            (fun _ _ _ => TCPRead tcp_reply None)
            (fun _ => 0) toy_KRBError_Unmarshal.

(** TCP answers KRB-ERROR 6 behind its length prefix. *)
Definition net_tcp_error : Network :=
  mkNetwork (fun _ _ _ => UDPRead principal_unknown None)
            (fun _ _ _ => TCPRead ([x00; x00; x00; x02] ++ principal_unknown)
                            None)
            (fun _ => 0) toy_KRBError_Unmarshal.

(** The first read on the TCP stream yields two octets. *)
Definition net_short : Network :=
  mkNetwork (fun _ _ _ => UDPRead too_big None)
            (fun _ _ _ => TCPRead [x00; x00] None)
            (fun _ => 0) toy_KRBError_Unmarshal.

(** *** Replies and requests *)

Record toy_credentials := mkCreds {
  with_keytab : bool;
  with_password : bool;
  password : string
}.

Definition keytab_key : EncryptionKey := mkEncryptionKey 18 [x01].
Definition password_key : EncryptionKey := mkEncryptionKey 18 [x02].

Definition alice : PrincipalName := mkPrincipalName 1 (Some ["alice"]).
Definition alice_admin : PrincipalName :=
  mkPrincipalName 1 (Some ["alice"; "admin"]).
Definition krbtgt : PrincipalName :=
  mkPrincipalName 2 (Some ["krbtgt"; "EXAMPLE.COM"]).
Definition krbtgt_other : PrincipalName :=
  mkPrincipalName 2 (Some ["krbtgt"; "OTHER.COM"]).

(** The encrypted part of a good reply: nonce 42, auth_time T0. *)
Definition enc_good : EncKDCRepPart.t :=
  EncKDCRepPart.mk (mkEncryptionKey 18 [x09]) [] 42 0 (mkBitString [] 0)
    T0 T0 (T0 + 36000 * Second) 0 "EXAMPLE.COM" krbtgt [] [].

Definition with_SName (e : EncKDCRepPart.t) (n : PrincipalName) :=
  EncKDCRepPart.mk (EncKDCRepPart.Key e) (EncKDCRepPart.LastReqs e)
    (EncKDCRepPart.Nonce e) (EncKDCRepPart.KeyExpiration e)
    (EncKDCRepPart.Flags e) (EncKDCRepPart.AuthTime e)
    (EncKDCRepPart.StartTime e) (EncKDCRepPart.EndTime e)
    (EncKDCRepPart.RenewTill e) (EncKDCRepPart.SRealm e) n
    (EncKDCRepPart.CAddr e) (EncKDCRepPart.EncPAData e).

Definition with_Nonce (e : EncKDCRepPart.t) (n : Z) :=
  EncKDCRepPart.mk (EncKDCRepPart.Key e) (EncKDCRepPart.LastReqs e)
    n (EncKDCRepPart.KeyExpiration e)
    (EncKDCRepPart.Flags e) (EncKDCRepPart.AuthTime e)
    (EncKDCRepPart.StartTime e) (EncKDCRepPart.EndTime e)
    (EncKDCRepPart.RenewTill e) (EncKDCRepPart.SRealm e)
    (EncKDCRepPart.SName e)
    (EncKDCRepPart.CAddr e) (EncKDCRepPart.EncPAData e).

Definition with_times (e : EncKDCRepPart.t) (auth start : Time) :=
  EncKDCRepPart.mk (EncKDCRepPart.Key e) (EncKDCRepPart.LastReqs e)
    (EncKDCRepPart.Nonce e) (EncKDCRepPart.KeyExpiration e)
    (EncKDCRepPart.Flags e) auth start (EncKDCRepPart.EndTime e)
    (EncKDCRepPart.RenewTill e) (EncKDCRepPart.SRealm e)
    (EncKDCRepPart.SName e)
    (EncKDCRepPart.CAddr e) (EncKDCRepPart.EncPAData e).

(** Toy codec: a plaintext is the application tag followed by one octet
    that picks the decoded value. *)
Definition toy_decoded (variant : byte) : EncKDCRepPart.t :=
  match variant with
  | x01 => with_SName enc_good krbtgt_other
  | x02 => with_Nonce enc_good 43
  | _ => enc_good
  end.

Definition toy_asn1 (b : bytes) (e : EncKDCRepPart.t) (tag : Z)
  : EncKDCRepPart.t * option error :=
  match b with
  | t :: v :: _ =>
      if Z.of_N (Byte.to_N t) =? tag then (toy_decoded v, None)
      else (e, Some (ErrExt "asn1: tags don't match"))
  | _ => (e, Some (ErrExt "asn1: data truncated"))
  end.

(** Toy crypto: the keytab holds [keytab_key], the password derives
    [password_key], decryption hands back the cipher octets. *)
Definition toys : Collaborators :=
  @mkCollaborators toy_credentials unit
    with_keytab with_password password
    (fun _ _ _ _ _ => (keytab_key, None))
    (fun _ _ _ _ _ => (password_key, None))
    (fun enc _ _ => (Cipher enc, None))
    toy_asn1
    (fun a b => Nat.eqb (List.length a) (List.length b))
    (fun pas t => existsb (fun pa => PADataType pa =? t) pas)
    (fun _ _ => false)
    (fun _ => (mkPAReqEncPARep 0 [], None))
    (fun _ => (tt, None))
    (fun _ => ([], None))
    (fun _ _ _ _ _ => true)
    149 136 15.

Definition creds_password : toy_credentials := mkCreds false true "secret".
Definition creds_both : toy_credentials := mkCreds true true "secret".

Definition ticket_krbtgt : Ticket.t :=
  Ticket.mk 5 "EXAMPLE.COM" krbtgt (mkEncryptedData 18 1 []).

(** A reply envelope for [cname] whose encrypted part decodes, under tag
    25, to variant [v] of the toy codec; [dec] is what DecryptedEncPart
    holds beforehand. *)
Definition reply (cname : PrincipalName) (v : byte) (dec : EncKDCRepPart.t)
  : KDCRepFields.t :=
  KDCRepFields.mk 5 11 [] "EXAMPLE.COM" cname ticket_krbtgt
    (mkEncryptedData 18 1 [x19; v]) dec.

(** A request of [cname] for krbtgt/EXAMPLE.COM with nonce 42. *)
Definition request_of (cname : PrincipalName) : KDCReqFields.t :=
  KDCReqFields.mk [] (KDCReqBody.mk cname "EXAMPLE.COM" krbtgt 42 []).

End Fixture.

(** ** Decoding the envelope: ASRep.Unmarshal and TGSRep.Unmarshal *)

Module RawValue.
(** asn1.RawValue, as far as the code reads it. *)
Record t := mk {
  Bytes : bytes
}.
End RawValue.

Module marshalKDCRep.
(** type marshalKDCRep struct: what the ASN.1 decoder fills. *)
Record t := mk {
  PVNO : Z;
  MsgType : Z;
  PAData : PADataSequence;
  CRealm : string;
  CName : PrincipalName;
  Ticket : RawValue.t;
  EncPart : EncryptedData
}.
End marshalKDCRep.

Module Envelope.

(** [var m marshalKDCRep] *)
Definition zero_marshalKDCRep : marshalKDCRep.t :=
  marshalKDCRep.mk 0 0 [] "" zero_PrincipalName (RawValue.mk [])
    (mkEncryptedData 0 0 []).

(** Modelled from the spec: the constants of package iana/asnAppTag,
    "Application tags used: ASREP=11, TGSREP=13". *)
Definition asnAppTag_ASREP : Z := 11.
Definition asnAppTag_TGSREP : Z := 13.

(** What the two Unmarshal methods call outside the file: the ASN.1
    decoder at type marshalKDCRep (working on the [m] it is given),
    processReplyError and UnmarshalTicket of package messages, and the
    message type numbers of package iana/msgtype. *)
Record Decoders := mkDecoders {
  asn1_UnmarshalKDCRep :
    bytes -> marshalKDCRep.t -> Z -> marshalKDCRep.t * option error;
  processReplyError : bytes -> error -> error;
  UnmarshalTicket : bytes -> Ticket.t * option error;
  msgtype_KRB_AS_REP : Z;
  msgtype_KRB_TGS_REP : Z
}.

(** func (k *ASRep) Unmarshal(b []byte) error, on the reply [k] points
    to.  The error of [errors.New] is an [ErrExt] with its text.  The
    struct literal assigned to [k.KDCRepFields] names no
    DecryptedEncPart: it gets the zero value. *)
Definition ASRep_Unmarshal (D : Decoders) (k : ASRep) (b : bytes)
  : option error * ASRep :=
  let m := zero_marshalKDCRep in
  let '(m, err) := asn1_UnmarshalKDCRep D b m asnAppTag_ASREP in
  match err with
  | Some err => (Some (processReplyError D b err), k)
  | None =>
      if negb (marshalKDCRep.MsgType m =? msgtype_KRB_AS_REP D)
      then (Some (ErrExt "Message ID does not indicate a KRB_AS_REP"), k)
      else
        (* Process the raw ticket within *)
        let '(tkt, err) :=
          UnmarshalTicket D (RawValue.Bytes (marshalKDCRep.Ticket m)) in
        match err with
        | Some err => (Some err, k)
        | None =>
            (None,
             KDCRepFields.mk (marshalKDCRep.PVNO m) (marshalKDCRep.MsgType m)
               (marshalKDCRep.PAData m) (marshalKDCRep.CRealm m)
               (marshalKDCRep.CName m) tkt (marshalKDCRep.EncPart m)
               zero_EncKDCRepPart)
        end
  end.

(** func (k *TGSRep) Unmarshal(b []byte) error *)
Definition TGSRep_Unmarshal (D : Decoders) (k : TGSRep) (b : bytes)
  : option error * TGSRep :=
  let m := zero_marshalKDCRep in
  let '(m, err) := asn1_UnmarshalKDCRep D b m asnAppTag_TGSREP in
  match err with
  | Some err => (Some (processReplyError D b err), k)
  | None =>
      if negb (marshalKDCRep.MsgType m =? msgtype_KRB_TGS_REP D)
      then (Some (ErrExt "Message ID does not indicate a KRB_TGS_REP"), k)
      else
        (* Process the raw ticket within *)
        let '(tkt, err) :=
          UnmarshalTicket D (RawValue.Bytes (marshalKDCRep.Ticket m)) in
        match err with
        | Some err => (Some err, k)
        | None =>
            (None,
             KDCRepFields.mk (marshalKDCRep.PVNO m) (marshalKDCRep.MsgType m)
               (marshalKDCRep.PAData m) (marshalKDCRep.CRealm m)
               (marshalKDCRep.CName m) tkt (marshalKDCRep.EncPart m)
               zero_EncKDCRepPart)
        end
  end.

End Envelope.

(** ** The wire format of the TCP length prefix *)

Module Wire.

(** binary.BigEndian.Uint32: four octets read as a number, most
    significant first; what the peer does with the prefix sendTCP
    writes. *)
Definition BigEndian_Uint32 (p : bytes) : option Z :=
  match p with
  | [b3; b2; b1; b0] =>
      Some (Z.of_N (Byte.to_N b3) * 2 ^ 24 + Z.of_N (Byte.to_N b2) * 2 ^ 16
            + Z.of_N (Byte.to_N b1) * 2 ^ 8 + Z.of_N (Byte.to_N b0))
  | _ => None
  end.

(** What sendTCP writes for the request [b]: the length of [b] in four
    octets, then [b]. *)
Definition frame (b : bytes) : bytes :=
  Transport.BigEndian_uint32 (Transport.uint32 (Transport.len b)) ++ b.

(** The events of a trace that are UDP exchanges. *)
Definition is_udp (e : Transport.Event) : bool :=
  match e with
  | Transport.CallUDP _ _ => true
  | Transport.CallTCP _ _ => false
  end.

(** An exchange of the request [b] with the KDC [kdc]: the datagram is
    [b], the stream gets [b] behind its length prefix. *)
Definition exchange_of (kdcs : list string) (b : bytes) (e : Transport.Event)
  : Prop :=
  match e with
  | Transport.CallUDP kdc p => In kdc kdcs /\ p = b
  | Transport.CallTCP kdc p =>
      In kdc kdcs
      /\ p = Transport.BigEndian_uint32 (Transport.uint32 (Transport.len b))
             ++ b
  end.

End Wire.

(** ** What the FAST loop asks of an entry *)

Module FAST.

(** An entry of the encrypted pre-authentication data passes the body
    of the loop of ASRep.IsValid: it decodes as a PAReqEncPARep, its
    checksum type resolves to an encryption type, and its checksum
    verifies over the marshalled request under the key of the reply. *)
Definition entry_verifies (X : Collaborators) (key : EncryptionKey)
    (asReq : ASReq) (pa : types.PAData) : Prop :=
  let pafast := PAReqEncPARep_Unmarshal X (PADataValue pa) in
  let etype := GetChksumEtype X (ChksumType (fst pafast)) in
  snd pafast = None
  /\ snd etype = None
  /\ VerifyChecksum X (KeyValue key) (Chksum (fst pafast))
       (fst (ASReq_Marshal X asReq)) keyusage_KEY_USAGE_AS_REQ (fst etype)
     = true.

End FAST.

(** ** Test doubles for the envelope decoders *)

Module EnvelopeFixture.

Import Envelope Fixture.

(** Toy envelope: the application tag, the message type, and the octets
    of the ticket. *)
Definition toy_envelope (b : bytes) (m : marshalKDCRep.t) (tag : Z)
  : marshalKDCRep.t * option error :=
  match b with
  | t :: mt :: tkt =>
      if Z.of_N (Byte.to_N t) =? tag
      then (marshalKDCRep.mk 5 (Z.of_N (Byte.to_N mt)) [] "EXAMPLE.COM" alice
              (RawValue.mk tkt) (mkEncryptedData 18 1 [x19; x00]), None)
      else (m, Some (ErrExt "asn1: tags don't match"))
  | _ => (m, Some (ErrExt "asn1: data truncated"))
  end.

(** Toy ticket decoder: a ticket is one octet or more. *)
Definition toy_ticket (b : bytes) : Ticket.t * option error :=
  match b with
  | [] => (Ticket.mk 0 "" zero_PrincipalName (mkEncryptedData 0 0 []),
           Some (ErrExt "asn1: ticket truncated"))
  | _ => (ticket_krbtgt, None)
  end.

(** processReplyError reports a KRB-ERROR when the octets are one. *)
Definition toy_decoders : Decoders :=
  mkDecoders toy_envelope
    (fun b err => match toy_KRBError_Unmarshal b with
                  | Some k => ErrKRB k
                  | None => err
                  end)
    toy_ticket 11 13.

(** UDP answers a reply that is no KRB-ERROR. *)
Definition net_udp_reply : Transport.Network :=
  Transport.mkNetwork (fun _ _ _ => Transport.UDPRead tcp_payload None)
    (fun _ _ _ => Transport.TCPRead tcp_reply None)
    (fun _ => 0) toy_KRBError_Unmarshal.

(** No realm of the configuration is the default realm. *)
Definition cfg_other_realm : Config :=
  mkConfig "EXAMPLE.COM" 1500 (300 * Second) [mkRealm "OTHER.ORG" [kdc1]].

(** The default realm is listed twice, first without a KDC. *)
Definition cfg_empty_first : Config :=
  mkConfig "EXAMPLE.COM" 1500 (300 * Second)
    [mkRealm "EXAMPLE.COM" []; mkRealm "EXAMPLE.COM" [kdc1]].

(** A configuration whose clockskew is negative. *)
Definition cfg_negative_skew : Config :=
  mkConfig "EXAMPLE.COM" 1500 (- Second) [mkRealm "EXAMPLE.COM" [kdc1]].

(** An encrypted part that answers a FAST negotiation: the EncPARep
    flag is to be read as set, and the encrypted pre-authentication
    data hold PA_FX_FAST (136) and PA_REQ_ENC_PA_REP (149). *)
Definition enc_fast : EncKDCRepPart.t :=
  EncKDCRepPart.mk (mkEncryptionKey 18 [x09]) [] 42 0 (mkBitString [x00] 16)
    T0 T0 (T0 + 36000 * Second) 0 "EXAMPLE.COM" krbtgt []
    [mkPAData 136 []; mkPAData 149 [x01]].

(** The toy collaborators, with a codec that decodes to [enc_fast], a
    flag test that answers yes and a checksum that verifies when the
    entry is not empty. *)
Definition toys_fast : Collaborators :=
  @mkCollaborators toy_credentials unit
    with_keytab with_password password
    (fun _ _ _ _ _ => (keytab_key, None))
    (fun _ _ _ _ _ => (password_key, None))
    (fun enc _ _ => (Cipher enc, None))
    (fun _ _ _ => (enc_fast, None))
    (fun a b => Nat.eqb (List.length a) (List.length b))
    (fun pas t => existsb (fun pa => PADataType pa =? t) pas)
    (fun _ _ => true)
    (fun v => (mkPAReqEncPARep 16 v, None))
    (fun _ => (tt, None))
    (fun _ => ([], None))
    (fun _ chk _ _ _ => negb (Nat.eqb (List.length chk) 0))
    149 136 15.

(** A request of alice that asks for the encrypted PA-REP. *)
Definition request_fast : KDCReqFields.t :=
  KDCReqFields.mk [mkPAData 149 []]
    (KDCReqBody.mk alice "EXAMPLE.COM" krbtgt 42 []).

Definition as_rep_octets : bytes := [x0b; x0b; x61].
Definition tgs_rep_octets : bytes := [x0d; x0d; x61].

End EnvelopeFixture.

(** * Properties of the transport *)

Module TransportFacts.

Import Transport Fixture.

Section General.

Variable net : Network.

Lemma len_nonneg {A} (l : list A) : 0 <= len l.
Proof. unfold len. lia. Qed.

Lemma len_lt_1 {A} (l : list A) : (len l <? 1) = true -> l = [].
Proof.
  unfold len. intros H. apply Z.ltb_lt in H.
  destruct l as [|a l]; [reflexivity | simpl in H; lia].
Qed.

(** checkForKRBError hands its argument back, whatever it decodes to. *)
Lemma checkForKRBError_bytes (b : bytes) : fst (checkForKRBError net b) = b.
Proof.
  unfold checkForKRBError. destruct (KRBError_Unmarshal net b); reflexivity.
Qed.

(** sendUDP reports a KRB-ERROR reply as an error of the exchange. *)
Lemma sendUDP_KRBError (kdc : string) (b data : bytes) (k : KRBError)
    (t : trace) :
  udp_run net t kdc b = UDPRead data None ->
  KRBError_Unmarshal net (firstn bufsize data) = Some k ->
  sendUDP net kdc b t
  = (Ret (firstn bufsize data, Some (ErrKRB k)), t ++ [CallUDP kdc b]).
Proof.
  intros Hrun Hdec. unfold sendUDP, bind, history, log, ret.
  rewrite Hrun. unfold checkForKRBError. rewrite Hdec. reflexivity.
Qed.

(** A read of fewer than four octets makes sendTCP panic at [r[4:]]. *)
Lemma sendTCP_short_read (kdc : string) (b data : bytes) (t : trace) :
  tcp_run net t kdc (BigEndian_uint32 (uint32 (len b)) ++ b)
  = TCPRead data None ->
  (List.length data < 4)%nat ->
  sendTCP net kdc b t
  = (Panic, t ++ [CallTCP kdc (BigEndian_uint32 (uint32 (len b)) ++ b)]).
Proof.
  intros Hrun Hlen. unfold sendTCP, bind, history, log, ret.
  rewrite Hrun. unfold slice_from.
  assert (Hshort : (List.length (firstn bufsize data) <? 4)%nat = true).
  { apply Nat.ltb_lt. rewrite length_firstn. lia. }
  cbv zeta. rewrite Hshort. reflexivity.
Qed.

(** With four octets or more, and a payload that is no KRB-ERROR,
    sendTCP hands back the payload behind the length prefix. *)
Lemma sendTCP_payload (kdc : string) (b data : bytes) (t : trace) :
  tcp_run net t kdc (BigEndian_uint32 (uint32 (len b)) ++ b)
  = TCPRead data None ->
  (4 <= List.length data)%nat ->
  KRBError_Unmarshal net (skipn 4 (firstn bufsize data)) = None ->
  sendTCP net kdc b t
  = (Ret (skipn 4 (firstn bufsize data), None),
     t ++ [CallTCP kdc (BigEndian_uint32 (uint32 (len b)) ++ b)]).
Proof.
  intros Hrun Hlen Hdec. unfold sendTCP, bind, history, log, ret.
  rewrite Hrun. unfold slice_from.
  assert (Hlong : (List.length (firstn bufsize data) <? 4)%nat = false).
  { apply Nat.ltb_ge. rewrite length_firstn. unfold bufsize. lia. }
  cbv zeta. rewrite Hlong. unfold ret. cbv beta iota.
  unfold checkForKRBError. rewrite Hdec. reflexivity.
Qed.

(** In the UDP-first branch a KRB_ERR_RESPONSE_TOO_BIG reply sends the
    request over TCP twice (once because sendUDP reported the KRB-ERROR
    as an error, once for the error code), and both TCP payloads are
    dropped: the [rb] SendToKDC returns is the one sendUDP filled. *)
Lemma SendToKDC_too_big_keeps_udp_reply
    (cfg : Config) (b data d1 d2 : bytes) (kdc : string) (k : KRBError) :
  let framed := BigEndian_uint32 (uint32 (len b)) ++ b in
  select_kdcs (Realms cfg) (Default_realm cfg) = [kdc] ->
  Udp_preference_limit cfg <> 1 ->
  len b <= Udp_preference_limit cfg ->
  udp_run net [] kdc b = UDPRead data None ->
  (0 < List.length data)%nat ->
  KRBError_Unmarshal net (firstn bufsize data) = Some k ->
  ErrorCode k = KRB_ERR_RESPONSE_TOO_BIG ->
  tcp_run net [CallUDP kdc b] kdc framed = TCPRead d1 None ->
  (4 <= List.length d1)%nat ->
  KRBError_Unmarshal net (skipn 4 (firstn bufsize d1)) = None ->
  tcp_run net [CallUDP kdc b; CallTCP kdc framed] kdc framed
  = TCPRead d2 None ->
  (4 <= List.length d2)%nat ->
  KRBError_Unmarshal net (skipn 4 (firstn bufsize d2)) = None ->
  SendToKDC net cfg b []
  = (Ret (firstn bufsize data, Some (ErrKRB k)),
     [CallUDP kdc b; CallTCP kdc framed; CallTCP kdc framed]).
Proof.
  intros framed Hsel Hlim Hlen Hudp Hne Hdec Hcode Htcp1 Hl1 Hp1 Htcp2 Hl2 Hp2.
  subst framed.
  unfold SendToKDC. rewrite Hsel. cbn [len List.length Z.of_nat].
  change (Z.pos (Pos.of_succ_nat 0) <? 1) with false.
  change (1 <? Z.pos (Pos.of_succ_nat 0)) with false.
  cbv iota.
  apply Z.eqb_neq in Hlim. rewrite Hlim.
  apply Z.leb_le in Hlen. rewrite Hlen.
  unfold bind at 1. unfold index_kdc. cbn [Z.ltb Z.compare Z.to_nat nth_error].
  unfold ret at 1.
  unfold bind at 1. rewrite (sendUDP_KRBError _ _ _ Hudp Hdec).
  unfold bind at 1. unfold bind at 1.
  cbn [app].
  rewrite (sendTCP_payload _ _ _ Htcp1 Hl1 Hp1).
  unfold ret at 1. rewrite Hdec.
  apply Z.eqb_eq in Hcode. rewrite Hcode.
  unfold bind at 1. unfold bind at 1. cbn [app].
  rewrite (sendTCP_payload _ _ _ Htcp2 Hl2 Hp2).
  unfold ret.
  assert (Hfull : (len (firstn bufsize data) <? 1) = false).
  { apply Z.ltb_ge. unfold len. rewrite length_firstn. unfold bufsize. lia. }
  rewrite Hfull. unfold checkForKRBError. rewrite Hdec. reflexivity.
Qed.

(** Whatever the stream does, sendTCP is entered in the trace once. *)
Lemma sendTCP_trace (kdc : string) (b : bytes) (t : trace) :
  snd (sendTCP net kdc b t)
  = t ++ [CallTCP kdc (BigEndian_uint32 (uint32 (len b)) ++ b)].
Proof.
  unfold sendTCP, bind, history, log, ret.
  destruct (tcp_run net t kdc _) as [e|e|e|data [e|]]; try reflexivity.
  cbv zeta. unfold slice_from.
  destruct (List.length (firstn bufsize data) <? 4)%nat; reflexivity.
Qed.

(** In the UDP-first branch every KRB-ERROR read from the datagram
    socket, whatever its code, is followed by a TCP exchange: sendUDP
    reports it as [errudp != nil]. *)
Lemma SendToKDC_udp_KRBError_calls_TCP
    (cfg : Config) (b data : bytes) (kdc : string) (k : KRBError) :
  select_kdcs (Realms cfg) (Default_realm cfg) = [kdc] ->
  Udp_preference_limit cfg <> 1 ->
  len b <= Udp_preference_limit cfg ->
  udp_run net [] kdc b = UDPRead data None ->
  KRBError_Unmarshal net (firstn bufsize data) = Some k ->
  exists rest,
    snd (SendToKDC net cfg b [])
    = [CallUDP kdc b;
       CallTCP kdc (BigEndian_uint32 (uint32 (len b)) ++ b)] ++ rest.
Proof.
  intros Hsel Hlim Hlen Hudp Hdec.
  unfold SendToKDC. rewrite Hsel. cbn [len List.length Z.of_nat].
  change (Z.pos (Pos.of_succ_nat 0) <? 1) with false.
  change (1 <? Z.pos (Pos.of_succ_nat 0)) with false.
  cbv iota.
  apply Z.eqb_neq in Hlim. rewrite Hlim.
  apply Z.leb_le in Hlen. rewrite Hlen.
  unfold bind at 1. unfold index_kdc. cbn [Z.ltb Z.compare Z.to_nat nth_error].
  unfold ret at 1.
  unfold bind at 1. rewrite (sendUDP_KRBError _ _ _ Hudp Hdec).
  unfold bind at 1. unfold bind at 1. cbn [app].
  pose proof (sendTCP_trace kdc b [CallUDP kdc b]) as Htr1.
  destruct (sendTCP net kdc b [CallUDP kdc b]) as [[[rb1 [e1|]]|] t1];
    cbn [snd] in Htr1; subst t1; cbn [app].
  - exists []. reflexivity.
  - unfold ret at 1. rewrite Hdec.
    destruct (ErrorCode k =? KRB_ERR_RESPONSE_TOO_BIG).
    + unfold bind at 1. unfold bind at 1.
      pose proof (sendTCP_trace kdc b
        [CallUDP kdc b;
         CallTCP kdc (BigEndian_uint32 (uint32 (len b)) ++ b)]) as Htr2.
      destruct (sendTCP net kdc b _) as [[[rb2 [e2|]]|] t2];
        cbn [snd] in Htr2; subst t2; cbn [app]; unfold ret;
        try (eexists; reflexivity).
      destruct (len (firstn bufsize data) <? 1); eexists; reflexivity.
    + unfold bind, ret.
      destruct (len (firstn bufsize data) <? 1); exists []; reflexivity.
  - exists []. reflexivity.
Qed.

End General.

(** C2 (defect in the code). The request fits udp_preference_limit, the
    UDP exchange succeeds and its reply decodes as a KRB-ERROR with code
    52, the TCP exchange succeeds with payload [tcp_payload]: SendToKDC
    goes to the KDC over TCP, twice, and still returns the octets of the
    UDP KRB-ERROR with that error, never the TCP payload. *)
Theorem SendToKDC_too_big_returns_udp_error :
  len request <= Udp_preference_limit cfg_udp
  /\ udp_run net_too_big [] kdc1 request = UDPRead too_big None
  /\ KRBError_Unmarshal net_too_big too_big
     = Some (mkKRBError KRB_ERR_RESPONSE_TOO_BIG "")
  /\ fst (sendTCP net_too_big kdc1 request [CallUDP kdc1 request])
     = Ret (tcp_payload, None)
  /\ SendToKDC net_too_big cfg_udp request []
     = (Ret (too_big, Some (ErrKRB (mkKRBError KRB_ERR_RESPONSE_TOO_BIG ""))),
        [CallUDP kdc1 request; CallTCP kdc1 framed_request;
         CallTCP kdc1 framed_request])
  /\ too_big <> tcp_payload.
Proof.
  repeat split; try reflexivity.
  - vm_compute. discriminate.
  - discriminate.
Qed.

(** C5 (defect in the code). A KRB-ERROR with code 6 read over UDP is
    followed by a TCP exchange all the same; and in the TCP-only mode a
    KRB-ERROR comes back wrapped in the "failed to communicate" error of
    SendToKDC, not as the KRBError itself. *)
Theorem SendToKDC_KRBError_not_surfaced_unchanged :
  KRBError_Unmarshal net_unknown principal_unknown = Some (mkKRBError 6 "")
  /\ 6 <> KRB_ERR_RESPONSE_TOO_BIG
  /\ SendToKDC net_unknown cfg_udp request []
     = (Ret (principal_unknown, Some (ErrKRB (mkKRBError 6 ""))),
        [CallUDP kdc1 request; CallTCP kdc1 framed_request])
  /\ SendToKDC net_tcp_error cfg_tcp request []
     = (Ret (principal_unknown,
             Some (ErrTCPOnly kdc1 (ErrKRB (mkKRBError 6 "")))),
        [CallTCP kdc1 framed_request])
  /\ SendToKDC net_tcp_error cfg_udp request []
     = (Ret (principal_unknown,
             Some (ErrUDPThenTCP kdc1 (ErrKRB (mkKRBError 6 ""))
                     (ErrKRB (mkKRBError 6 "")))),
        [CallUDP kdc1 request; CallTCP kdc1 framed_request]).
Proof.
  repeat split; try reflexivity. discriminate.
Qed.

(** C9 (defect in the code). A TCP read that yields two octets and no
    error makes sendTCP, and with it SendToKDC, panic at [r[4:]]: no
    error is returned. *)
Theorem sendTCP_short_read_panics :
  tcp_run net_short [] kdc1 framed_request = TCPRead [x00; x00] None
  /\ sendTCP net_short kdc1 request []
     = (Panic, [CallTCP kdc1 framed_request])
  /\ SendToKDC net_short cfg_tcp request []
     = (Panic, [CallTCP kdc1 framed_request]).
Proof.
  repeat split; reflexivity.
Qed.

End TransportFacts.

(** * Properties of decryption and validation *)

Module MessagesFacts.

Import KDCRepFields Messages Fixture.

Section NameLoop.

(** The comparison loop, started at index [length pre] on two sequences
    that agree up to there and on the [a] that follows, finds no
    difference within [a]. *)
Lemma differ_at_common (pre a ra rb : list string) :
  differ_at (seq (List.length pre) (List.length a))
    (pre ++ a ++ ra) (pre ++ a ++ rb) = Ret false.
Proof.
  revert pre. induction a as [|x a IH]; intros pre; [reflexivity|].
  cbn [List.length seq differ_at].
  rewrite nth_error_app2 by lia. rewrite Nat.sub_diag. cbn [app nth_error].
  rewrite nth_error_app2 by lia. rewrite Nat.sub_diag. cbn [app nth_error].
  rewrite String.eqb_refl.
  specialize (IH (pre ++ [x])).
  rewrite length_app, Nat.add_1_r, <- !app_assoc in IH. exact IH.
Qed.

(** A reply name that is a prefix of the requested name passes the
    loop, however much longer the requested name is. *)
Lemma differ_at_prefix (a rest : list string) :
  differ_at (range (Some a)) (elems (Some a)) (elems (Some (a ++ rest)))
  = Ret false.
Proof.
  unfold range, elems.
  pose proof (differ_at_common [] a [] rest) as H.
  cbn [app List.length] in H. rewrite app_nil_r in H. exact H.
Qed.

(** A reply name that extends the requested name makes the loop index
    the requested name past its end. *)
Lemma differ_at_longer (b : list string) (x : string) (rest : list string) :
  differ_at (range (Some (b ++ x :: rest))) (elems (Some (b ++ x :: rest)))
    (elems (Some b))
  = Panic.
Proof.
  unfold range, elems. rewrite length_app, seq_app. cbn [Nat.add].
  assert (Hgen : forall idx tail,
            differ_at idx (b ++ x :: rest) b = Ret false ->
            differ_at (idx ++ List.length b :: tail) (b ++ x :: rest) b
            = Panic).
  { induction idx as [|i idx IH]; intros tail Hidx.
    - cbn [app differ_at]. rewrite nth_error_app2 by lia.
      rewrite Nat.sub_diag. cbn [nth_error].
      assert (Hnone : nth_error b (List.length b) = None)
        by (apply nth_error_None; lia).
      rewrite Hnone. reflexivity.
    - cbn [app differ_at] in *.
      destruct (nth_error (b ++ x :: rest) i); [|discriminate].
      destruct (nth_error b i); [|discriminate].
      destruct (String.eqb s s0); [|discriminate].
      apply IH. exact Hidx. }
  cbn [List.length seq].
  apply Hgen.
  pose proof (differ_at_common [] b (x :: rest) []) as H.
  cbn [app List.length] in H. rewrite app_nil_r in H. exact H.
Qed.

End NameLoop.

Section Decryption.

Variable X : Collaborators.

(** The decoder of the encrypted part succeeds exactly when the attempt
    under tag 25 does, or, that one having failed, the attempt under tag
    26 on what the first attempt left behind. *)
Lemma EncKDCRepPart_Unmarshal_ok (e : EncKDCRepPart.t) (b : bytes) :
  snd (EncKDCRepPart_Unmarshal X e b) = None <->
  snd (asn1_UnmarshalWithParams X b e asnAppTag_EncASRepPart) = None
  \/ snd (asn1_UnmarshalWithParams X b
            (fst (asn1_UnmarshalWithParams X b e asnAppTag_EncASRepPart))
            asnAppTag_EncTGSRepPart) = None.
Proof.
  unfold EncKDCRepPart_Unmarshal.
  destruct (asn1_UnmarshalWithParams X b e asnAppTag_EncASRepPart)
    as [e1 [err1|]]; cbn [fst snd].
  - split; [intros H; right; exact H | intros [H|H]; [discriminate | exact H]].
  - split; [intros _; left; reflexivity | reflexivity].
Qed.

(** C7. EncKDCRepPart.Unmarshal decodes under application tag 25 first:
    when that attempt succeeds its result is the result; when it fails,
    the result is that of a second attempt under tag 26; when both fail
    the call fails with the error of the second.  ASRep.DecryptEncPart
    and TGSRep.DecryptEncPart both decode the plaintext through it, so a
    plaintext that decodes under either tag fills DecryptedEncPart of
    either kind of reply, and one that decodes under neither is an
    error. *)
Theorem EncKDCRepPart_Unmarshal_tag_fallback
    (e e1 : EncKDCRepPart.t) (err1 : option error) (b : bytes)
    (key : EncryptionKey) (k : KDCRepFields.t) (c : Credentials X) :
  asn1_UnmarshalWithParams X b e asnAppTag_EncASRepPart = (e1, err1) ->
  asnAppTag_EncASRepPart = 25 /\ asnAppTag_EncTGSRepPart = 26
  /\ (err1 = None -> EncKDCRepPart_Unmarshal X e b = (e1, None))
  /\ (err1 <> None ->
      EncKDCRepPart_Unmarshal X e b
      = asn1_UnmarshalWithParams X b e1 asnAppTag_EncTGSRepPart)
  /\ (err1 <> None ->
      forall e2 err2,
        asn1_UnmarshalWithParams X b e1 asnAppTag_EncTGSRepPart
        = (e2, Some err2) ->
        EncKDCRepPart_Unmarshal X e b = (e2, Some err2))
  /\ (crypto_DecryptEncPart X (EncPart k) key
        keyusage_TGS_REP_ENCPART_SESSION_KEY = (b, None) ->
      TGSRep_DecryptEncPart X key k
      = match EncKDCRepPart_Unmarshal X zero_EncKDCRepPart b with
        | (denc, None) => (None, set_DecryptedEncPart k denc)
        | (_, Some err) => (Some (ErrUnmarshalEnc err), k)
        end)
  /\ (forall key' k',
        ASRep_DecryptEncPart X c k = ((key', None), k') ->
        exists b' denc,
          crypto_DecryptEncPart X (EncPart k) key' keyusage_AS_REP_ENCPART
          = (b', None)
          /\ EncKDCRepPart_Unmarshal X zero_EncKDCRepPart b' = (denc, None)
          /\ k' = set_DecryptedEncPart k denc).
Proof.
  intros H1. split; [reflexivity|]. split; [reflexivity|].
  split; [|split; [|split; [|split]]].
  - intros ->. unfold EncKDCRepPart_Unmarshal. rewrite H1. reflexivity.
  - intros Hne. unfold EncKDCRepPart_Unmarshal. rewrite H1.
    destruct err1; [reflexivity | congruence].
  - intros Hne e2 err2 H2. unfold EncKDCRepPart_Unmarshal. rewrite H1.
    destruct err1; [exact H2 | congruence].
  - intros Hd. unfold TGSRep_DecryptEncPart. rewrite Hd.
    destruct (EncKDCRepPart_Unmarshal X zero_EncKDCRepPart b) as [denc [err|]];
      reflexivity.
  - intros key' k'. unfold ASRep_DecryptEncPart.
    destruct (if HasKeytab X c then _ else _) as [kk [ek|]];
      [intros H; discriminate|].
    destruct (if HasPassword X c then _ else _) as [kp [ep|]];
      [intros H; discriminate|].
    destruct (negb (HasKeytab X c) && negb (HasPassword X c));
      [intros H; discriminate|].
    destruct (crypto_DecryptEncPart X (EncPart k) kp keyusage_AS_REP_ENCPART)
      as [b' [ed|]] eqn:Hd; [intros H; discriminate|].
    destruct (EncKDCRepPart_Unmarshal X zero_EncKDCRepPart b')
      as [denc [eu|]] eqn:Hu; [intros H; discriminate|].
    intros H. inversion H; subst. exists b', denc.
    rewrite Hd. auto.
Qed.

End Decryption.

(** When the tag of the plaintext is 26, the toy codec fails under tag
    25 and the second attempt decodes it, for AS-REP and TGS-REP alike. *)
Lemma EncKDCRepPart_Unmarshal_tag_fallback_witness :
  EncKDCRepPart_Unmarshal toys zero_EncKDCRepPart [x1a; x00] = (enc_good, None)
  /\ EncKDCRepPart_Unmarshal toys zero_EncKDCRepPart [x19; x00]
     = (enc_good, None)
  /\ snd (EncKDCRepPart_Unmarshal toys zero_EncKDCRepPart [x30; x00]) <> None.
Proof.
  pose proof (@EncKDCRepPart_Unmarshal_tag_fallback toys zero_EncKDCRepPart
                zero_EncKDCRepPart (Some (ErrExt "asn1: tags don't match"))
                [x1a; x00] zero_EncryptionKey
                (reply alice x00 zero_EncKDCRepPart) creds_password
                eq_refl) as (_ & _ & _ & H26 & _).
  pose proof (@EncKDCRepPart_Unmarshal_tag_fallback toys zero_EncKDCRepPart
                enc_good None [x19; x00] zero_EncryptionKey
                (reply alice x00 zero_EncKDCRepPart) creds_password
                eq_refl) as (_ & _ & H25 & _).
  pose proof (@EncKDCRepPart_Unmarshal_tag_fallback toys zero_EncKDCRepPart
                zero_EncKDCRepPart (Some (ErrExt "asn1: tags don't match"))
                [x30; x00] zero_EncryptionKey
                (reply alice x00 zero_EncKDCRepPart) creds_password
                eq_refl) as (_ & _ & _ & _ & Hboth & _).
  split; [|split].
  - rewrite H26; [reflexivity | discriminate].
  - apply H25. reflexivity.
  - rewrite (Hboth ltac:(discriminate) zero_EncKDCRepPart
               (ErrExt "asn1: tags don't match") eq_refl).
    discriminate.
Defined.

Section KeyAcquisition.

Variable X : Collaborators.

(** Where the key comes from, test by test.  The keytab is consulted
    whenever one is held and a miss ends the call.  The password is
    consulted whenever one is held, with or without a keytab, and the
    key derived from it replaces the key of the keytab: the keytab key
    decrypts only when no password is held.  With neither, the call
    fails for want of a secret.  In each case the key handed back is
    the key given to crypto.DecryptEncPart. *)
Theorem ASRep_DecryptEncPart_key_source (c : Credentials X) (k : ASRep) :
  let lookup :=
    Keytab_GetEncryptionKey X c (NameString (CName k)) (CRealm k)
      (KVNO (EncPart k)) (EType (EncPart k)) in
  let derive :=
    GetKeyFromPassword X (Password X c) (CName k) (CRealm k)
      (EType (EncPart k)) (PAData k) in
  let r := ASRep_DecryptEncPart X c k in
  (HasKeytab X c = true ->
   forall e, snd lookup = Some e ->
   r = ((fst lookup, Some (ErrKeytab e)), k))
  /\ (HasPassword X c = true ->
      HasKeytab X c = false \/ snd lookup = None ->
      fst (fst r) = fst derive
      /\ (forall e, snd derive = Some e ->
          r = ((fst derive, Some (ErrPassword e)), k)))
  /\ (HasKeytab X c = true -> HasPassword X c = false ->
      snd lookup = None ->
      fst (fst r) = fst lookup)
  /\ (HasKeytab X c = false -> HasPassword X c = false ->
      r = ((zero_EncryptionKey, Some ErrNoSecret), k))
  /\ (forall b e,
        crypto_DecryptEncPart X (EncPart k) (fst (fst r))
          keyusage_AS_REP_ENCPART = (b, Some e) ->
        snd (fst r) = Some (ErrDecrypt e)
        \/ (exists e', snd (fst r) = Some (ErrKeytab e'))
        \/ (exists e', snd (fst r) = Some (ErrPassword e'))
        \/ snd (fst r) = Some ErrNoSecret).
Proof.
  intros lookup derive r. subst r. unfold ASRep_DecryptEncPart.
  fold lookup. fold derive.
  destruct lookup as [kk ek]; destruct derive as [kp ep]; cbn [fst snd].
  split; [|split; [|split; [|split]]].
  - intros Hk e ->. rewrite Hk. reflexivity.
  - intros Hp Hcase. rewrite Hp.
    assert (Hpre : (if HasKeytab X c then (kk, ek)
                    else (zero_EncryptionKey, None))
                   = (if HasKeytab X c then kk else zero_EncryptionKey,
                      @None error)).
    { destruct Hcase as [Hk | Hk]; [rewrite Hk; reflexivity|].
      subst ek. destruct (HasKeytab X c); reflexivity. }
    rewrite Hpre. destruct ep as [e|].
    + split; [reflexivity|]. intros e0 He0. inversion He0. reflexivity.
    + split; [|intros e He; discriminate].
      destruct (negb (HasKeytab X c) && negb true) eqn:Hn.
      * rewrite andb_false_r in Hn. discriminate.
      * destruct (crypto_DecryptEncPart X (EncPart k) kp
                    keyusage_AS_REP_ENCPART) as [b [e|]]; [reflexivity|].
        destruct (EncKDCRepPart_Unmarshal X zero_EncKDCRepPart b)
          as [denc [e|]]; reflexivity.
  - intros Hk Hp ->. rewrite Hk, Hp. cbn [negb andb].
    destruct (crypto_DecryptEncPart X (EncPart k) kk
                keyusage_AS_REP_ENCPART) as [b [e|]]; [reflexivity|].
    destruct (EncKDCRepPart_Unmarshal X zero_EncKDCRepPart b)
      as [denc [e|]]; reflexivity.
  - intros Hk Hp. rewrite Hk, Hp. reflexivity.
  - intros b e.
    destruct (if HasKeytab X c then (kk, ek) else (zero_EncryptionKey, None))
      as [k1 [e1|]].
    { intros _. right. left. exists e1. reflexivity. }
    destruct (if HasPassword X c then (kp, ep) else (k1, None))
      as [k2 [e2|]].
    { intros _. right. right. left. exists e2. reflexivity. }
    destruct (negb (HasKeytab X c) && negb (HasPassword X c)).
    { intros _. right. right. right. reflexivity. }
    destruct (crypto_DecryptEncPart X (EncPart k) k2 keyusage_AS_REP_ENCPART)
      as [b2 [ed|]] eqn:Hd.
    { cbn [fst snd]. rewrite Hd. intros H. inversion H. left. reflexivity. }
    destruct (EncKDCRepPart_Unmarshal X zero_EncKDCRepPart b2)
      as [denc [eu|]]; cbn [fst snd]; rewrite Hd; intros H; discriminate.
Qed.

End KeyAcquisition.

(** C3 (defect in the code). These credentials hold a keytab, whose
    entry for the reply is found, and a password.  The test for the
    password is an [if] of its own, not the [else] of the test for the
    keytab: the key derived from the password replaces the entry just
    found, and the key ASRep.DecryptEncPart decrypts with and hands
    back is the password key, not the keytab entry. *)
Lemma ASRep_DecryptEncPart_password_overrides_keytab :
  HasKeytab toys creds_both = true
  /\ Keytab_GetEncryptionKey toys creds_both (Some ["alice"]) "EXAMPLE.COM"
       1 18 = (keytab_key, None)
  /\ fst (ASRep_DecryptEncPart toys creds_both
            (reply alice x00 zero_EncKDCRepPart))
     = (password_key, None)
  /\ password_key <> keytab_key.
Proof.
  repeat split; try reflexivity. discriminate.
Qed.

(** The same credentials, through the theorem: the password key is the
    one in use. *)
Lemma ASRep_DecryptEncPart_key_source_witness :
  fst (fst (ASRep_DecryptEncPart toys creds_both
              (reply alice x00 zero_EncKDCRepPart)))
  = password_key.
Proof.
  pose proof (@ASRep_DecryptEncPart_key_source toys creds_both
                (reply alice x00 zero_EncKDCRepPart)) as (_ & Hpw & _).
  destruct (Hpw eq_refl (or_intror eq_refl)) as [Hkey _].
  exact Hkey.
Defined.


(** ** Validation *)

(** One step along the body of IsValid: case analysis on the test the
    left-hand side starts with. *)
Ltac head_step :=
  lazymatch goal with
  | |- (if ?c then _ else _) = _ -> _ => destruct c eqn:?
  | |- (match ?c with _ => _ end) = _ -> _ => destruct c eqn:?
  end.

Ltac reject := let H := fresh in intros H; discriminate H.

Section Validation.

Variable X : Collaborators.

(** A successful ASRep.DecryptEncPart changes DecryptedEncPart and
    nothing else. *)
Lemma ASRep_DecryptEncPart_ok_inv (c : Credentials X) (k k' : ASRep)
    (key : EncryptionKey) :
  ASRep_DecryptEncPart X c k = ((key, None), k') ->
  exists b denc,
    crypto_DecryptEncPart X (EncPart k) key keyusage_AS_REP_ENCPART
    = (b, None)
    /\ EncKDCRepPart_Unmarshal X zero_EncKDCRepPart b = (denc, None)
    /\ k' = set_DecryptedEncPart k denc.
Proof.
  unfold ASRep_DecryptEncPart.
  destruct (if HasKeytab X c then _ else _) as [kk [ek|]]; [reject|].
  destruct (if HasPassword X c then _ else _) as [kp [ep|]]; [reject|].
  destruct (negb (HasKeytab X c) && negb (HasPassword X c)); [reject|].
  destruct (crypto_DecryptEncPart X (EncPart k) kp keyusage_AS_REP_ENCPART)
    as [b' [ed|]] eqn:Hd; [reject|].
  destruct (EncKDCRepPart_Unmarshal X zero_EncKDCRepPart b')
    as [denc [eu|]] eqn:Hu; [reject|].
  intros H. inversion H; subst. exists b', denc. rewrite Hd. auto.
Qed.

(** A failed ASRep.DecryptEncPart leaves the reply as it was. *)
Lemma ASRep_DecryptEncPart_err_inv (c : Credentials X) (k k' : ASRep)
    (key : EncryptionKey) (e : error) :
  ASRep_DecryptEncPart X c k = ((key, Some e), k') -> k' = k.
Proof.
  unfold ASRep_DecryptEncPart.
  destruct (if HasKeytab X c then _ else _) as [kk [ek|]];
    [intros H; inversion H; reflexivity|].
  destruct (if HasPassword X c then _ else _) as [kp [ep|]];
    [intros H; inversion H; reflexivity|].
  destruct (negb (HasKeytab X c) && negb (HasPassword X c));
    [intros H; inversion H; reflexivity|].
  destruct (crypto_DecryptEncPart X (EncPart k) kp keyusage_AS_REP_ENCPART)
    as [b' [ed|]]; [intros H; inversion H; reflexivity|].
  destruct (EncKDCRepPart_Unmarshal X zero_EncKDCRepPart b')
    as [denc [eu|]]; [intros H; inversion H; reflexivity | reject].
Qed.

(** ASRep.DecryptEncPart does not read DecryptedEncPart. *)
Lemma ASRep_DecryptEncPart_set (c : Credentials X) (k : ASRep)
    (d : EncKDCRepPart.t) :
  ASRep_DecryptEncPart X c (set_DecryptedEncPart k d)
  = match ASRep_DecryptEncPart X c k with
    | (res, k') =>
        (res, match snd res with
              | None => k'
              | Some _ => set_DecryptedEncPart k d
              end)
    end.
Proof.
  unfold ASRep_DecryptEncPart.
  cbn [set_DecryptedEncPart CName CRealm EncPart PAData].
  destruct (if HasKeytab X c then _ else _) as [kk [ek|]]; [reflexivity|].
  destruct (if HasPassword X c then _ else _) as [kp [ep|]]; [reflexivity|].
  destruct (negb (HasKeytab X c) && negb (HasPassword X c)); [reflexivity|].
  destruct (crypto_DecryptEncPart X (EncPart k) kp keyusage_AS_REP_ENCPART)
    as [b' [ed|]]; [reflexivity|].
  destruct (EncKDCRepPart_Unmarshal X zero_EncKDCRepPart b')
    as [denc [eu|]]; reflexivity.
Qed.

(** The FAST loop has three errors of its own. *)
Lemma fast_loop_errors (key : EncryptionKey) (asReq : ASReq)
    (pas : list types.PAData) (e : error) :
  fast_loop X key asReq pas = Some e ->
  (exists e', e = ErrFASTUnmarshal e')
  \/ (exists e', e = ErrFASTChksumEtype e')
  \/ e = ErrFASTChecksum.
Proof.
  induction pas as [|pa rest IH]; cbn [fast_loop]; [reject|].
  destruct (PADataType pa =? patype_PA_REQ_ENC_PA_REP X); [|exact IH].
  destruct (PAReqEncPARep_Unmarshal X (PADataValue pa)) as [pafast [e1|]].
  { intros H; inversion H. left. eexists. reflexivity. }
  destruct (GetChksumEtype X (ChksumType pafast)) as [etype [e2|]].
  { intros H; inversion H. right. left. eexists. reflexivity. }
  destruct (ASReq_Marshal X asReq) as [ab _].
  destruct (negb (VerifyChecksum X _ _ _ _ _)); [|exact IH].
  intros H; inversion H. right. right. reflexivity.
Qed.

(** What Time.Sub gives on both sides of the skew bound. *)
Lemma skew_at_bound (t a skew : Z) :
  0 <= skew <= maxDuration - Second ->
  Z.abs (t - a) = skew ->
  exceeds (Time_Sub t a) skew || exceeds (Time_Sub a t) skew = false.
Proof.
  unfold exceeds, Time_Sub, maxDuration, minDuration, Second.
  intros Hs Habs. apply orb_false_iff. split; apply Z.ltb_ge;
    repeat match goal with
           | |- context [if ?c then _ else _] =>
               let E := fresh in
               destruct c eqn:E;
               [apply Z.ltb_lt in E | apply Z.ltb_ge in E]
           end; lia.
Qed.

Lemma skew_past_bound (t a skew : Z) :
  0 <= skew <= maxDuration - Second ->
  Z.abs (t - a) = skew + Second ->
  exceeds (Time_Sub t a) skew || exceeds (Time_Sub a t) skew = true.
Proof.
  unfold exceeds, Time_Sub, maxDuration, minDuration, Second.
  intros Hs Habs. apply orb_true_iff.
  destruct (Z.le_ge_cases a t) as [Hle | Hle]; [left | right];
    apply Z.ltb_lt;
    repeat match goal with
           | |- context [if ?c then _ else _] =>
               let E := fresh in
               destruct c eqn:E;
               [apply Z.ltb_lt in E | apply Z.ltb_ge in E]
           end; lia.
Qed.

(** Once accepted at some time, an AS-REP is judged at any other time by
    the skew test alone: nothing else in ASRep.IsValid reads the clock,
    and the call leaves the same reply behind. *)
Lemma ASRep_IsValid_at_other_time (clk0 clk : Clock) (cfg : Config)
    (creds : Credentials X) (asReq : ASReq) (k k0 : ASRep) :
  ASRep_IsValid X clk0 cfg creds asReq k = (Ret (true, None), k0) ->
  ASRep_IsValid X clk cfg creds asReq k
  = (if exceeds (Time_Sub (clk 0%nat)
                   (EncKDCRepPart.AuthTime (DecryptedEncPart k0)))
          (Clockskew cfg)
        || exceeds (Time_Sub (EncKDCRepPart.AuthTime (DecryptedEncPart k0))
                      (clk 0%nat))
             (Clockskew cfg)
     then Ret (false, Some ErrClockSkew) else Ret (true, None), k0).
Proof.
  unfold ASRep_IsValid. cbv zeta.
  repeat (head_step; try reject);
    intros H; inversion H; subst; clear H;
    match goal with
    | |- context [if ?c then _ else _] => destruct c; reflexivity
    end.
Qed.

End Validation.

Section ValidationClaims.

Variable X : Collaborators.

(** A reply whose CName extends the requested one, with the same name
    type, makes both IsValid functions panic in their first loop. *)
Lemma TGSRep_IsValid_longer_CName_panics (clk : Clock) (cfg : Config)
    (tgsReq : TGSReq) (k : TGSRep) (b rest : list string) (x : string) :
  NameType (CName k)
  = NameType (KDCReqBody.CName (KDCReqFields.ReqBody tgsReq)) ->
  NameString (CName k) = Some (b ++ x :: rest) ->
  NameString (KDCReqBody.CName (KDCReqFields.ReqBody tgsReq)) = Some b ->
  TGSRep_IsValid X clk cfg tgsReq k = Panic.
Proof.
  intros Htype Hrep Hreq. unfold TGSRep_IsValid. cbv zeta.
  rewrite Htype, Z.eqb_refl, Hrep, Hreq. cbn [negb is_nil orb].
  rewrite differ_at_longer. reflexivity.
Qed.

Lemma ASRep_IsValid_longer_CName_panics (clk : Clock) (cfg : Config)
    (creds : Credentials X) (asReq : ASReq) (k : ASRep)
    (b rest : list string) (x : string) :
  NameType (CName k)
  = NameType (KDCReqBody.CName (KDCReqFields.ReqBody asReq)) ->
  NameString (CName k) = Some (b ++ x :: rest) ->
  NameString (KDCReqBody.CName (KDCReqFields.ReqBody asReq)) = Some b ->
  ASRep_IsValid X clk cfg creds asReq k = (Panic, k).
Proof.
  intros Htype Hrep Hreq. unfold ASRep_IsValid. cbv zeta.
  rewrite Htype, Z.eqb_refl, Hrep, Hreq. cbn [negb is_nil orb].
  rewrite differ_at_longer. reflexivity.
Qed.

(** The same for a TGS-REP: once accepted at some time, only the two
    skew tests decide at any other. *)
Lemma TGSRep_IsValid_at_other_time (clk0 clk : Clock) (cfg : Config)
    (tgsReq : TGSReq) (k : TGSRep) :
  TGSRep_IsValid X clk0 cfg tgsReq k = Ret (true, None) ->
  TGSRep_IsValid X clk cfg tgsReq k
  = let '(out1, n) :=
      skew_exceeded clk (Clockskew cfg)
        (EncKDCRepPart.StartTime (DecryptedEncPart k)) 0 in
    if out1 then
      let '(out2, _) :=
        skew_exceeded clk (Clockskew cfg)
          (EncKDCRepPart.AuthTime (DecryptedEncPart k)) n in
      if out2 then Ret (false, Some ErrClockSkew) else Ret (true, None)
    else Ret (true, None).
Proof.
  unfold TGSRep_IsValid. cbv zeta.
  do 13 (head_step; try reject).
  intros _. reflexivity.
Qed.

(** With a clock that stands still, the two operands of a skew test of
    TGSRep.IsValid are the two directions of one comparison. *)
Lemma skew_exceeded_still (now : Time) (skew : Duration) (x : Time) (n : nat) :
  fst (skew_exceeded (clock_at now) skew x n)
  = exceeds (Time_Sub now x) skew || exceeds (Time_Sub x now) skew.
Proof.
  unfold skew_exceeded, clock_at.
  destruct (exceeds (Time_Sub now x) skew); reflexivity.
Qed.


(** ASRep.IsValid reads the clock once. *)
Lemma ASRep_IsValid_first_reading (clk clk' : Clock) (cfg : Config)
    (creds : Credentials X) (asReq : ASReq) (k : ASRep) :
  clk 0%nat = clk' 0%nat ->
  ASRep_IsValid X clk cfg creds asReq k
  = ASRep_IsValid X clk' cfg creds asReq k.
Proof.
  intros H. unfold ASRep_IsValid. rewrite H. reflexivity.
Qed.

(** TGSRep.IsValid reads it four times at most. *)
Lemma TGSRep_IsValid_four_readings (clk clk' : Clock) (cfg : Config)
    (tgsReq : TGSReq) (k : TGSRep) :
  (forall i, (i < 4)%nat -> clk i = clk' i) ->
  TGSRep_IsValid X clk cfg tgsReq k = TGSRep_IsValid X clk' cfg tgsReq k.
Proof.
  intros H. unfold TGSRep_IsValid, skew_exceeded.
  rewrite (H 0%nat), (H 1%nat) by lia.
  destruct (exceeds (Time_Sub (clk' 0%nat) _) (Clockskew cfg));
    cbv beta iota;
    rewrite ?(H 1%nat), ?(H 2%nat), ?(H 3%nat) by lia; reflexivity.
Qed.

(** Validating the reply with another DecryptedEncPart in it gives the
    same verdict; the reply the call leaves behind is the one of the
    first run when decryption was reached and succeeded, the input
    otherwise. *)
Lemma ASRep_IsValid_set (clk : Clock) (cfg : Config) (creds : Credentials X)
    (asReq : ASReq) (k k' : ASRep) (r : outcome verdict)
    (d : EncKDCRepPart.t) :
  ASRep_IsValid X clk cfg creds asReq k = (r, k') ->
  (k' = k
   /\ ASRep_IsValid X clk cfg creds asReq (set_DecryptedEncPart k d)
      = (r, set_DecryptedEncPart k d))
  \/ (exists denc,
        k' = set_DecryptedEncPart k denc
        /\ ASRep_IsValid X clk cfg creds asReq (set_DecryptedEncPart k d)
           = (r, k')).
Proof.
  unfold ASRep_IsValid. rewrite ASRep_DecryptEncPart_set.
  cbn [set_DecryptedEncPart CName CRealm EncPart PAData]. cbv zeta.
  do 4 (head_step; try (intros H; inversion H; subst; left; split; reflexivity)).
  destruct (ASRep_DecryptEncPart X creds k) as [[key [e|]] k1] eqn:Hdec;
    cbn [snd].
  - apply ASRep_DecryptEncPart_err_inv in Hdec. subst k1.
    intros H; inversion H; subst. left. split; reflexivity.
  - apply ASRep_DecryptEncPart_ok_inv in Hdec as (b & denc & _ & _ & Hk1).
    repeat head_step;
      intros H; inversion H; subst; right; exists denc; split; reflexivity.
Qed.

(** Running ASRep.IsValid again on the reply it left behind gives the
    same verdict and the same reply. *)
Lemma ASRep_IsValid_again (clk : Clock) (cfg : Config) (creds : Credentials X)
    (asReq : ASReq) (k k' : ASRep) (r : outcome verdict) :
  ASRep_IsValid X clk cfg creds asReq k = (r, k') ->
  ASRep_IsValid X clk cfg creds asReq k' = (r, k').
Proof.
  intros H.
  destruct (@ASRep_IsValid_set clk cfg creds asReq k k' r
              (DecryptedEncPart k') H)
    as [[Hk _] | (denc & Hk & Hrun)].
  - subst k'. exact H.
  - assert (Hsame : set_DecryptedEncPart k (DecryptedEncPart k') = k').
    { rewrite Hk. reflexivity. }
    rewrite Hsame in Hrun. exact Hrun.
Qed.


(** A leaf of the walk along IsValid: the verdict is known. *)
Ltac leaf :=
  let H := fresh in
  solve [intros H; inversion H; subst; cbn [fst]; auto].

Ltac not_replay :=
  let H := fresh in
  let Hr := fresh in
  intros H; inversion H; subst; cbn [fst];
  first
    [ discriminate
    | intros Hr; inversion Hr; subst;
      match goal with
      | Hf : fast_loop _ _ _ _ = Some _ |- _ =>
          apply fast_loop_errors in Hf;
          destruct Hf as [[? Hf]|[[? Hf]|Hf]]; discriminate Hf
      end ].

Lemma ASRep_IsValid_nonce_differs (clk : Clock) (cfg : Config)
    (creds : Credentials X) (asReq : ASReq) (k kd : ASRep)
    (key : EncryptionKey) :
  ASRep_DecryptEncPart X creds k = ((key, None), kd) ->
  EncKDCRepPart.Nonce (DecryptedEncPart kd)
  <> KDCReqBody.Nonce (KDCReqFields.ReqBody asReq) ->
  fst (ASRep_IsValid X clk cfg creds asReq k) = Ret (false, Some ErrReplay)
  \/ fst (ASRep_IsValid X clk cfg creds asReq k) = Ret (false, Some ErrCName)
  \/ fst (ASRep_IsValid X clk cfg creds asReq k) = Ret (false, Some ErrCRealm)
  \/ fst (ASRep_IsValid X clk cfg creds asReq k) = Panic.
Proof.
  intros Hdec Hne.
  destruct (ASRep_IsValid X clk cfg creds asReq k) as [r k'] eqn:H.
  revert H. unfold ASRep_IsValid. rewrite Hdec. cbv beta iota zeta.
  do 4 (head_step; try leaf).
  apply Z.eqb_neq in Hne. rewrite Hne. cbn [negb]. leaf.
Qed.

Lemma ASRep_IsValid_nonce_equal (clk : Clock) (cfg : Config)
    (creds : Credentials X) (asReq : ASReq) (k kd : ASRep)
    (key : EncryptionKey) :
  ASRep_DecryptEncPart X creds k = ((key, None), kd) ->
  EncKDCRepPart.Nonce (DecryptedEncPart kd)
  = KDCReqBody.Nonce (KDCReqFields.ReqBody asReq) ->
  fst (ASRep_IsValid X clk cfg creds asReq k) <> Ret (false, Some ErrReplay).
Proof.
  intros Hdec Heq.
  destruct (ASRep_IsValid X clk cfg creds asReq k) as [r k'] eqn:H.
  revert H. unfold ASRep_IsValid. rewrite Hdec. cbv beta iota zeta.
  rewrite Heq, Z.eqb_refl. cbn [negb].
  do 4 (head_step; try not_replay).
  repeat head_step; not_replay.
Qed.

Lemma TGSRep_IsValid_nonce_differs (clk : Clock) (cfg : Config)
    (tgsReq : TGSReq) (k : TGSRep) :
  EncKDCRepPart.Nonce (DecryptedEncPart k)
  <> KDCReqBody.Nonce (KDCReqFields.ReqBody tgsReq) ->
  TGSRep_IsValid X clk cfg tgsReq k = Ret (false, Some ErrReplay)
  \/ TGSRep_IsValid X clk cfg tgsReq k = Ret (false, Some ErrCName)
  \/ TGSRep_IsValid X clk cfg tgsReq k = Ret (false, Some ErrCRealm)
  \/ TGSRep_IsValid X clk cfg tgsReq k = Panic.
Proof.
  intros Hne.
  destruct (TGSRep_IsValid X clk cfg tgsReq k) as [r|] eqn:H; [|auto].
  revert H. unfold TGSRep_IsValid. cbv zeta.
  apply Z.eqb_neq in Hne. rewrite Hne. cbn [negb].
  do 4 (head_step; try leaf).
Qed.

Lemma TGSRep_IsValid_nonce_equal (clk : Clock) (cfg : Config)
    (tgsReq : TGSReq) (k : TGSRep) :
  EncKDCRepPart.Nonce (DecryptedEncPart k)
  = KDCReqBody.Nonce (KDCReqFields.ReqBody tgsReq) ->
  TGSRep_IsValid X clk cfg tgsReq k <> Ret (false, Some ErrReplay).
Proof.
  intros Heq.
  destruct (TGSRep_IsValid X clk cfg tgsReq k) as [r|] eqn:H; [|discriminate].
  revert H. unfold TGSRep_IsValid, skew_exceeded. cbv zeta.
  rewrite Heq, Z.eqb_refl. cbn [negb].
  repeat head_step;
    let H := fresh in intros H; inversion H; subst; discriminate.
Qed.


Lemma is_nil_not_None {A} (s : option (list A)) :
  s <> None -> is_nil s = false.
Proof. destruct s; [reflexivity | congruence]. Qed.

(** Past the comparison of the client name and realm, and past a
    decryption that succeeds, a differing nonce ends ASRep.IsValid in
    the replay error, with the decrypted reply left behind. *)
Lemma ASRep_IsValid_replay (clk : Clock) (cfg : Config)
    (creds : Credentials X) (asReq : ASReq) (k kd : ASRep)
    (key : EncryptionKey) :
  ASRep_DecryptEncPart X creds k = ((key, None), kd) ->
  NameType (CName k)
  = NameType (KDCReqBody.CName (KDCReqFields.ReqBody asReq)) ->
  NameString (CName k) <> None ->
  differ_at (range (NameString (CName k))) (elems (NameString (CName k)))
    (elems (NameString (KDCReqBody.CName (KDCReqFields.ReqBody asReq))))
  = Ret false ->
  CRealm k = KDCReqBody.Realm (KDCReqFields.ReqBody asReq) ->
  EncKDCRepPart.Nonce (DecryptedEncPart kd)
  <> KDCReqBody.Nonce (KDCReqFields.ReqBody asReq) ->
  ASRep_IsValid X clk cfg creds asReq k = (Ret (false, Some ErrReplay), kd).
Proof.
  intros Hdec Htype Hnil Hloop Hrealm Hne.
  unfold ASRep_IsValid. cbv zeta.
  rewrite Hloop, Hdec.
  rewrite Htype, Z.eqb_refl, (is_nil_not_None Hnil).
  rewrite Hrealm, String.eqb_refl.
  apply Z.eqb_neq in Hne. rewrite Hne. reflexivity.
Qed.

(** The same for TGSRep.IsValid, which finds the reply decrypted. *)
Lemma TGSRep_IsValid_replay (clk : Clock) (cfg : Config)
    (tgsReq : TGSReq) (k : TGSRep) :
  NameType (CName k)
  = NameType (KDCReqBody.CName (KDCReqFields.ReqBody tgsReq)) ->
  NameString (CName k) <> None ->
  differ_at (range (NameString (CName k))) (elems (NameString (CName k)))
    (elems (NameString (KDCReqBody.CName (KDCReqFields.ReqBody tgsReq))))
  = Ret false ->
  CRealm k = KDCReqBody.Realm (KDCReqFields.ReqBody tgsReq) ->
  EncKDCRepPart.Nonce (DecryptedEncPart k)
  <> KDCReqBody.Nonce (KDCReqFields.ReqBody tgsReq) ->
  TGSRep_IsValid X clk cfg tgsReq k = Ret (false, Some ErrReplay).
Proof.
  intros Htype Hnil Hloop Hrealm Hne.
  unfold TGSRep_IsValid. cbv zeta.
  rewrite Hloop.
  rewrite Htype, Z.eqb_refl, (is_nil_not_None Hnil).
  rewrite Hrealm, String.eqb_refl.
  apply Z.eqb_neq in Hne. rewrite Hne. reflexivity.
Qed.

(** C4. A decrypted reply whose nonce differs from the nonce of the
    request is turned down as a replay, whatever the two nonces.  When
    the checks that come first pass (the client name type is the
    requested one, the reply's name sequence is not nil and the loop
    over it meets no difference, the client realm is the requested
    one, and for an AS-REP the decryption succeeds), ASRep.IsValid and
    TGSRep.IsValid return false with the replay error, and nothing
    else.  Without that, a differing nonce still never leads further
    than the nonce check: the call ends in the replay error or in what
    an earlier check made of it.  A reply whose decrypted nonce equals
    the nonce of the request passes the check: the call never ends in
    the replay error. *)
Theorem nonce_mismatch_is_replay
    (clk : Clock) (cfg : Config) (creds : Credentials X)
    (asReq : ASReq) (tgsReq : TGSReq) (k kd : ASRep) (kt : TGSRep)
    (key : EncryptionKey) :
  ASRep_DecryptEncPart X creds k = ((key, None), kd) ->
  let as_body := KDCReqFields.ReqBody asReq in
  let tgs_body := KDCReqFields.ReqBody tgsReq in
  let as_nonce := EncKDCRepPart.Nonce (DecryptedEncPart kd) in
  let tgs_nonce := EncKDCRepPart.Nonce (DecryptedEncPart kt) in
  let ras := fst (ASRep_IsValid X clk cfg creds asReq k) in
  let rtgs := TGSRep_IsValid X clk cfg tgsReq kt in
  (NameType (CName k) = NameType (KDCReqBody.CName as_body) ->
   NameString (CName k) <> None ->
   differ_at (range (NameString (CName k))) (elems (NameString (CName k)))
     (elems (NameString (KDCReqBody.CName as_body))) = Ret false ->
   CRealm k = KDCReqBody.Realm as_body ->
   as_nonce <> KDCReqBody.Nonce as_body ->
   ASRep_IsValid X clk cfg creds asReq k = (Ret (false, Some ErrReplay), kd))
  /\ (NameType (CName kt) = NameType (KDCReqBody.CName tgs_body) ->
      NameString (CName kt) <> None ->
      differ_at (range (NameString (CName kt)))
        (elems (NameString (CName kt)))
        (elems (NameString (KDCReqBody.CName tgs_body))) = Ret false ->
      CRealm kt = KDCReqBody.Realm tgs_body ->
      tgs_nonce <> KDCReqBody.Nonce tgs_body ->
      rtgs = Ret (false, Some ErrReplay))
  /\ (as_nonce <> KDCReqBody.Nonce as_body ->
      ras = Ret (false, Some ErrReplay)
      \/ ras = Ret (false, Some ErrCName)
      \/ ras = Ret (false, Some ErrCRealm)
      \/ ras = Panic)
  /\ (as_nonce = KDCReqBody.Nonce as_body ->
      ras <> Ret (false, Some ErrReplay))
  /\ (tgs_nonce <> KDCReqBody.Nonce tgs_body ->
      rtgs = Ret (false, Some ErrReplay)
      \/ rtgs = Ret (false, Some ErrCName)
      \/ rtgs = Ret (false, Some ErrCRealm)
      \/ rtgs = Panic)
  /\ (tgs_nonce = KDCReqBody.Nonce tgs_body ->
      rtgs <> Ret (false, Some ErrReplay)).
Proof.
  intros Hdec. cbv zeta.
  split; [|split; [|split; [|split; [|split]]]].
  - intros Htype Hnil Hloop Hrealm Hne.
    eapply ASRep_IsValid_replay; eassumption.
  - intros Htype Hnil Hloop Hrealm Hne.
    apply TGSRep_IsValid_replay; assumption.
  - intros Hne. eapply ASRep_IsValid_nonce_differs; eassumption.
  - intros Heq. eapply ASRep_IsValid_nonce_equal; eassumption.
  - intros Hne. apply TGSRep_IsValid_nonce_differs. exact Hne.
  - intros Heq. apply TGSRep_IsValid_nonce_equal. exact Heq.
Qed.

(** C6. The skew test takes both directions of the difference and its
    bound is inclusive.  For a configured skew between zero and the
    largest Duration less one second, and a reply that validation
    accepts at some time: an AS-REP is accepted when the clock reads
    auth_time plus or minus the skew, and turned down for clock skew
    when it reads auth_time plus or minus the skew and one second; a
    TGS-REP is accepted when the clock reads start_time plus or minus
    the skew, accepted when start_time is off by the skew and one second
    and auth_time by the skew, and turned down when both are off by the
    skew and one second.  The clock stands still during the call. *)
Theorem clock_skew_bound_is_inclusive
    (clk0 clk0' : Clock) (cfg : Config) (creds : Credentials X)
    (asReq : ASReq) (tgsReq : TGSReq) (k k0 : ASRep) (kt : TGSRep)
    (now : Time) :
  0 <= Clockskew cfg <= maxDuration - Second ->
  ASRep_IsValid X clk0 cfg creds asReq k = (Ret (true, None), k0) ->
  TGSRep_IsValid X clk0' cfg tgsReq kt = Ret (true, None) ->
  let skew := Clockskew cfg in
  let auth := EncKDCRepPart.AuthTime (DecryptedEncPart k0) in
  let tgs_start := EncKDCRepPart.StartTime (DecryptedEncPart kt) in
  let tgs_auth := EncKDCRepPart.AuthTime (DecryptedEncPart kt) in
  let ras := fst (ASRep_IsValid X (clock_at now) cfg creds asReq k) in
  let rtgs := TGSRep_IsValid X (clock_at now) cfg tgsReq kt in
  (Z.abs (now - auth) = skew -> ras = Ret (true, None))
  /\ (Z.abs (now - auth) = skew + Second ->
      ras = Ret (false, Some ErrClockSkew))
  /\ (Z.abs (now - tgs_start) = skew -> rtgs = Ret (true, None))
  /\ (Z.abs (now - tgs_start) = skew + Second ->
      Z.abs (now - tgs_auth) = skew ->
      rtgs = Ret (true, None))
  /\ (Z.abs (now - tgs_start) = skew + Second ->
      Z.abs (now - tgs_auth) = skew + Second ->
      rtgs = Ret (false, Some ErrClockSkew)).
Proof.
  intros Hskew Has Htgs. cbv zeta.
  rewrite (@ASRep_IsValid_at_other_time X clk0 (clock_at now) _ _ _ _ _ Has).
  rewrite (@TGSRep_IsValid_at_other_time clk0' (clock_at now) _ _ _ Htgs).
  cbn [fst].
  pose proof (skew_exceeded_still now (Clockskew cfg)
                (EncKDCRepPart.StartTime (DecryptedEncPart kt)) 0) as Hs.
  destruct (skew_exceeded (clock_at now) (Clockskew cfg)
              (EncKDCRepPart.StartTime (DecryptedEncPart kt)) 0)
    as [out1 n].
  pose proof (skew_exceeded_still now (Clockskew cfg)
                (EncKDCRepPart.AuthTime (DecryptedEncPart kt)) n) as Ha.
  destruct (skew_exceeded (clock_at now) (Clockskew cfg)
              (EncKDCRepPart.AuthTime (DecryptedEncPart kt)) n)
    as [out2 m].
  cbn [fst] in Hs, Ha. subst out1 out2. unfold clock_at.
  split; [|split; [|split; [|split]]].
  - intros H. rewrite (skew_at_bound _ _ Hskew H). reflexivity.
  - intros H. rewrite (skew_past_bound _ _ Hskew H). reflexivity.
  - intros H. rewrite (skew_at_bound _ _ Hskew H). reflexivity.
  - intros H1 H2. rewrite (skew_past_bound _ _ Hskew H1).
    rewrite (skew_at_bound _ _ Hskew H2). reflexivity.
  - intros H1 H2. rewrite (skew_past_bound _ _ Hskew H1).
    rewrite (skew_past_bound _ _ Hskew H2). reflexivity.
Qed.

(** C8, as the code has it. The verdict is a function of the reply, the
    request, the configuration, the credentials and of what the clock
    reads during the call: ASRep.IsValid reads it once, TGSRep.IsValid
    four times at most, and two runs that read the same times give the
    same verdict.  ASRep.IsValid stores the decrypted part in the reply;
    run again on the reply it left behind it gives the same verdict and
    leaves the same reply. *)
Theorem validation_is_a_function_of_inputs_and_clock
    (clk clk' : Clock) (cfg : Config) (creds : Credentials X)
    (asReq : ASReq) (tgsReq : TGSReq) (k : ASRep) (kt : TGSRep) :
  (forall i, (i < 4)%nat -> clk i = clk' i) ->
  ASRep_IsValid X clk cfg creds asReq k
  = ASRep_IsValid X clk' cfg creds asReq k
  /\ TGSRep_IsValid X clk cfg tgsReq kt = TGSRep_IsValid X clk' cfg tgsReq kt
  /\ ASRep_IsValid X clk cfg creds asReq
       (snd (ASRep_IsValid X clk cfg creds asReq k))
     = ASRep_IsValid X clk cfg creds asReq k.
Proof.
  intros Hclk. split; [|split].
  - apply ASRep_IsValid_first_reading. apply Hclk. lia.
  - apply TGSRep_IsValid_four_readings. exact Hclk.
  - destruct (ASRep_IsValid X clk cfg creds asReq k) as [r k'] eqn:H.
    cbn [snd]. apply ASRep_IsValid_again with (k := k). exact H.
Qed.

End ValidationClaims.

(** *** The claims on explicit replies *)

(** C4 on the toy KDC: the request carries nonce 42.  The AS-REP, whose
    encrypted part decodes with nonce 43, and the TGS-REP decrypted
    with nonce 43 pass the checks on the client and are turned down as
    replays; the TGS-REP with nonce 42 is not. *)
Lemma nonce_mismatch_is_replay_witness :
  ASRep_DecryptEncPart toys creds_password (reply alice x02 zero_EncKDCRepPart)
  = ((password_key, None), reply alice x02 (with_Nonce enc_good 43))
  /\ ASRep_IsValid toys (clock_at T0) cfg_udp creds_password
       (request_of alice) (reply alice x02 zero_EncKDCRepPart)
     = (Ret (false, Some ErrReplay),
        reply alice x02 (with_Nonce enc_good 43))
  /\ TGSRep_IsValid toys (clock_at T0) cfg_udp (request_of alice)
       (reply alice x00 (with_Nonce enc_good 43))
     = Ret (false, Some ErrReplay)
  /\ TGSRep_IsValid toys (clock_at T0) cfg_udp (request_of alice)
       (reply alice x00 enc_good)
     <> Ret (false, Some ErrReplay).
Proof.
  split; [reflexivity|].
  pose proof (@nonce_mismatch_is_replay toys (clock_at T0) cfg_udp
                creds_password (request_of alice) (request_of alice)
                (reply alice x02 zero_EncKDCRepPart)
                (reply alice x02 (with_Nonce enc_good 43))
                (reply alice x00 (with_Nonce enc_good 43)) password_key
                eq_refl) as H.
  cbv zeta in H. destruct H as (Has & Htgs & _).
  pose proof (@nonce_mismatch_is_replay toys (clock_at T0) cfg_udp
                creds_password (request_of alice) (request_of alice)
                (reply alice x02 zero_EncKDCRepPart)
                (reply alice x02 (with_Nonce enc_good 43))
                (reply alice x00 enc_good) password_key eq_refl) as H'.
  cbv zeta in H'. destruct H' as (_ & _ & _ & _ & _ & Hsame).
  split; [|split].
  - apply Has; [reflexivity | discriminate | reflexivity | reflexivity
               | discriminate].
  - apply Htgs; [reflexivity | discriminate | reflexivity | reflexivity
                | discriminate].
  - apply Hsame. reflexivity.
Defined.

(** C6 on the toy KDC, skew 300s: the replies accepted at T0 are
    accepted at T0+300s and turned down at T0+301s. *)
Lemma clock_skew_bound_is_inclusive_witness :
  (0 <= Clockskew cfg_udp <= maxDuration - Second)
  /\ ASRep_IsValid toys (clock_at T0) cfg_udp creds_password
       (request_of alice) (reply alice x00 zero_EncKDCRepPart)
     = (Ret (true, None), reply alice x00 enc_good)
  /\ TGSRep_IsValid toys (clock_at T0) cfg_udp (request_of alice)
       (reply alice x00 enc_good) = Ret (true, None)
  /\ fst (ASRep_IsValid toys (clock_at (T0 + 300 * Second)) cfg_udp
            creds_password (request_of alice)
            (reply alice x00 zero_EncKDCRepPart))
     = Ret (true, None)
  /\ TGSRep_IsValid toys (clock_at (T0 + 300 * Second)) cfg_udp
       (request_of alice) (reply alice x00 enc_good)
     = Ret (true, None)
  /\ fst (ASRep_IsValid toys (clock_at (T0 - 301 * Second)) cfg_udp
            creds_password (request_of alice)
            (reply alice x00 zero_EncKDCRepPart))
     = Ret (false, Some ErrClockSkew)
  /\ TGSRep_IsValid toys (clock_at (T0 - 301 * Second)) cfg_udp
       (request_of alice) (reply alice x00 enc_good)
     = Ret (false, Some ErrClockSkew).
Proof.
  assert (Hskew : 0 <= Clockskew cfg_udp <= maxDuration - Second).
  { split; vm_compute; discriminate. }
  pose proof (@clock_skew_bound_is_inclusive toys (clock_at T0) (clock_at T0)
                cfg_udp creds_password (request_of alice) (request_of alice)
                (reply alice x00 zero_EncKDCRepPart)
                (reply alice x00 enc_good) (reply alice x00 enc_good)
                (T0 + 300 * Second) Hskew eq_refl eq_refl)
    as (Has & _ & Htgs & _).
  pose proof (@clock_skew_bound_is_inclusive toys (clock_at T0) (clock_at T0)
                cfg_udp creds_password (request_of alice) (request_of alice)
                (reply alice x00 zero_EncKDCRepPart)
                (reply alice x00 enc_good) (reply alice x00 enc_good)
                (T0 - 301 * Second) Hskew eq_refl eq_refl)
    as (_ & Has' & _ & _ & Htgs').
  split; [exact Hskew|].
  split; [reflexivity|]. split; [reflexivity|].
  split; [apply Has; reflexivity|].
  split; [apply Htgs; reflexivity|].
  split; [apply Has'; reflexivity|].
  apply Htgs'; reflexivity.
Defined.

(** C8, as the claim words it, fails: the same reply, request,
    configuration and credentials are accepted when the clock reads T0
    and turned down when it reads T0+301s. *)
Lemma validation_verdict_changes_with_the_clock :
  fst (ASRep_IsValid toys (clock_at T0) cfg_udp creds_password
         (request_of alice) (reply alice x00 zero_EncKDCRepPart))
  = Ret (true, None)
  /\ fst (ASRep_IsValid toys (clock_at (T0 + 301 * Second)) cfg_udp
            creds_password (request_of alice)
            (reply alice x00 zero_EncKDCRepPart))
     = Ret (false, Some ErrClockSkew)
  /\ TGSRep_IsValid toys (clock_at T0) cfg_udp (request_of alice)
       (reply alice x00 enc_good)
     = Ret (true, None)
  /\ TGSRep_IsValid toys (clock_at (T0 + 301 * Second)) cfg_udp
       (request_of alice) (reply alice x00 enc_good)
     = Ret (false, Some ErrClockSkew).
Proof.
  repeat split; reflexivity.
Qed.

(** C8 on the toy KDC: two clocks that read T0 four times and part
    afterwards give the same verdicts, and a second run on the reply the
    first one left behind changes nothing. *)
Lemma validation_is_a_function_of_inputs_and_clock_witness :
  ASRep_IsValid toys (clock_at T0) cfg_udp creds_password (request_of alice)
    (reply alice x00 zero_EncKDCRepPart)
  = ASRep_IsValid toys (fun i => if (i <? 4)%nat then T0 else 0) cfg_udp
      creds_password (request_of alice) (reply alice x00 zero_EncKDCRepPart)
  /\ ASRep_IsValid toys (clock_at T0) cfg_udp creds_password
       (request_of alice) (reply alice x00 enc_good)
     = (Ret (true, None), reply alice x00 enc_good).
Proof.
  assert (Hclk : forall i, (i < 4)%nat ->
                   clock_at T0 i = (if (i <? 4)%nat then T0 else 0)).
  { intros i Hi. apply Nat.ltb_lt in Hi. rewrite Hi. reflexivity. }
  destruct (@validation_is_a_function_of_inputs_and_clock toys
              (clock_at T0) (fun i => if (i <? 4)%nat then T0 else 0)
              cfg_udp creds_password (request_of alice) (request_of alice)
              (reply alice x00 zero_EncKDCRepPart)
              (reply alice x00 enc_good) Hclk)
    as (Has & _ & Hagain).
  split; [exact Has|].
  exact Hagain.
Defined.

(** C1 (defect in the code). The request of alice asks for
    krbtgt/EXAMPLE.COM; the encrypted part of the reply names
    krbtgt/OTHER.COM.  The loop that compares the two SName sequences
    runs over the indices of the reply's CName, which has one element:
    only "krbtgt" is compared, and ASRep.IsValid and TGSRep.IsValid
    accept the reply. *)
Theorem IsValid_accepts_other_SName :
  NameString krbtgt_other <> NameString krbtgt
  /\ ASRep_IsValid toys (clock_at T0) cfg_udp creds_password
       (request_of alice) (reply alice x01 zero_EncKDCRepPart)
     = (Ret (true, None), reply alice x01 (with_SName enc_good krbtgt_other))
  /\ TGSRep_IsValid toys (clock_at T0) cfg_udp (request_of alice)
       (reply alice x00 (with_SName enc_good krbtgt_other))
     = Ret (true, None).
Proof.
  split; [discriminate|]. split; reflexivity.
Qed.

(** C10 (defect in the code). The loop that compares the two CName
    sequences runs over the indices of the reply's and never compares
    the lengths.  A reply for [alice] to a request of [alice/admin] is
    accepted on the common prefix; a reply for [alice/admin] to a
    request of [alice] indexes the request's sequence at 1 and
    panics. *)
Theorem IsValid_CName_length_unchecked :
  fst (ASRep_IsValid toys (clock_at T0) cfg_udp creds_password
         (request_of alice_admin) (reply alice x00 zero_EncKDCRepPart))
  = Ret (true, None)
  /\ TGSRep_IsValid toys (clock_at T0) cfg_udp (request_of alice_admin)
       (reply alice x00 enc_good)
     = Ret (true, None)
  /\ fst (ASRep_IsValid toys (clock_at T0) cfg_udp creds_password
            (request_of alice) (reply alice_admin x00 zero_EncKDCRepPart))
     = Panic
  /\ TGSRep_IsValid toys (clock_at T0) cfg_udp (request_of alice)
       (reply alice_admin x00 enc_good)
     = Panic.
Proof.
  repeat split; reflexivity.
Qed.

End MessagesFacts.

(** * Further properties of the transport *)

Module TransportExtra.

Import Transport Wire Fixture EnvelopeFixture.

(** Case analysis on the innermost test a computation starts with. *)
Ltac scrut c :=
  lazymatch c with
  | context [match ?d with _ => _ end] => scrut d
  | context [if ?d then _ else _] => scrut d
  | _ => tryif is_var c then destruct c else destruct c eqn:?
  end.

Ltac walk :=
  repeat lazymatch goal with
         | |- ?lhs = _ -> _ =>
             lazymatch lhs with
             | context [match ?d with _ => _ end] => scrut d
             | context [if ?d then _ else _] => scrut d
             end
         end.

(** The two sides of an equation between results are equal part by
    part. *)
Ltac take :=
  let H := fresh in
  intros H; injection H; clear H; intros; subst.

Section AnyNetwork.

Variable net : Network.

(** The buffer size stays folded in what follows. *)
#[local] Opaque bufsize.

Lemma index_kdc_spec (kdcs : list string) (i : Z) (t t' : trace)
    (o : outcome string) :
  index_kdc kdcs i t = (o, t') ->
  t' = t /\ (o = Panic \/ exists k, o = Ret k /\ In k kdcs).
Proof.
  unfold index_kdc, panic, ret.
  destruct (i <? 0); [take; auto|].
  destruct (nth_error kdcs (Z.to_nat i)) as [k|] eqn:Hk;
    take; split; auto.
  right. exists k. split; [reflexivity|]. eapply nth_error_In; eassumption.
Qed.

Lemma checkForKRBError_ok (b rb : bytes) :
  checkForKRBError net b = (rb, None) ->
  rb = b /\ KRBError_Unmarshal net b = None.
Proof.
  unfold checkForKRBError.
  destruct (KRBError_Unmarshal net b); take; auto; discriminate.
Qed.

Lemma checkForKRBError_err (b rb : bytes) (e : error) :
  checkForKRBError net b = (rb, Some e) ->
  rb = b /\ KRBError_Unmarshal net b <> None.
Proof.
  unfold checkForKRBError.
  destruct (KRBError_Unmarshal net b); take; split; congruence.
Qed.

(** sendUDP never panics; it hands back nothing, or what the socket
    read, cut at the size of the buffer. *)
Lemma sendUDP_spec (kdc : string) (b : bytes) (t t' : trace)
    (o : outcome (bytes * option error)) :
  sendUDP net kdc b t = (o, t') ->
  t' = t ++ [CallUDP kdc b]
  /\ exists r e,
       o = Ret (r, e)
       /\ (List.length r <= bufsize)%nat
       /\ (e = None -> KRBError_Unmarshal net r = None)
       /\ ((r = [] /\ e <> None)
           \/ exists data err,
                udp_run net t kdc b = UDPRead data err
                /\ r = firstn bufsize data).
Proof.
  unfold sendUDP, bind, history, log, ret.
  destruct (udp_run net t kdc b) as [e|e|e|data [e|]] eqn:Hrun.
  1-3: take; split; [reflexivity|]; eexists [], _; split; [reflexivity|];
       split; [cbn; lia|]; split; [discriminate|]; left;
       split; [reflexivity | discriminate].
  - take. split; [reflexivity|].
    eexists _, _; split; [reflexivity|]; split; [apply firstn_le_length|].
    split; [discriminate|]. right. eauto.
  - cbv zeta.
    destruct (checkForKRBError net (firstn bufsize data)) as [r e] eqn:Hc.
    take. split; [reflexivity|].
    exists r, e. split; [reflexivity|].
    destruct e as [e|].
    + apply checkForKRBError_err in Hc. destruct Hc as [-> _].
      split; [apply firstn_le_length|]. split; [discriminate|]. right. eauto.
    + apply checkForKRBError_ok in Hc. destruct Hc as [-> Hd].
      split; [apply firstn_le_length|]. split; [auto|]. right. eauto.
Qed.

(** sendTCP panics or hands back nothing with an error, or the octets
    behind the first four of what the stream read. *)
Lemma sendTCP_spec (kdc : string) (b : bytes) (t t' : trace)
    (o : outcome (bytes * option error)) :
  sendTCP net kdc b t = (o, t') ->
  t' = t ++ [CallTCP kdc (frame b)]
  /\ (o = Panic
      \/ exists r e,
           o = Ret (r, e)
           /\ (List.length r <= bufsize)%nat
           /\ (e = None ->
               KRBError_Unmarshal net r = None
               /\ exists data,
                    tcp_run net t kdc (frame b) = TCPRead data None
                    /\ r = skipn 4 (firstn bufsize data))
           /\ (e <> None -> r = [] \/ KRBError_Unmarshal net r <> None)).
Proof.
  unfold sendTCP, bind, history, log, ret, frame.
  destruct (tcp_run net t kdc _) as [e|e|e|data [e|]] eqn:Hrun;
    try (take; split; [reflexivity|];
         right; eexists [], _; split; [reflexivity|]; split; [cbn; lia|];
         split; [discriminate | intros _; left; reflexivity]).
  cbv zeta. unfold slice_from, panic, ret.
  destruct (List.length (firstn bufsize data) <? 4)%nat;
    [take; split; [reflexivity | left; reflexivity]|].
  assert (Hlen : (List.length (skipn 4 (firstn bufsize data)) <= bufsize)%nat).
  { rewrite length_skipn. pose proof (firstn_le_length bufsize data). lia. }
  destruct (checkForKRBError net (skipn 4 (firstn bufsize data)))
    as [r e] eqn:Hc.
  take. split; [reflexivity|]. right.
  exists r, e. split; [reflexivity|].
  destruct e as [e|].
  - apply checkForKRBError_err in Hc. destruct Hc as [-> Hd].
    split; [exact Hlen|]. split; [discriminate|]. intros _. right. exact Hd.
  - apply checkForKRBError_ok in Hc. destruct Hc as [-> Hd].
    split; [exact Hlen|]. split; [|congruence].
    intros _. split; [exact Hd|]. exists data. auto.
Qed.

(** Use what is known of every exchange met on the way. *)
Ltac exchanges :=
  repeat match goal with
         | H : index_kdc _ _ _ = _ |- _ =>
             apply index_kdc_spec in H;
             let Hk := fresh "Hk" in
             destruct H as [-> [H | (? & H & Hk)]];
             [ first [discriminate H | clear H]
             | first [discriminate H
                     | injection H; clear H; intros; subst] ]
         | H : sendUDP net _ _ _ = _ |- _ =>
             apply sendUDP_spec in H;
             let Ho := fresh "Ho" in
             destruct H as (-> & ? & ? & Ho & ? & ? & ?);
             first [discriminate Ho
                   | injection Ho; clear Ho; intros; subst]
         | H : sendTCP net _ _ _ = _ |- _ =>
             apply sendTCP_spec in H;
             let Ho := fresh "Ho" in
             destruct H as (-> & [Ho | (? & ? & Ho & ? & ? & ?)]);
             [ first [discriminate Ho | clear Ho]
             | first [discriminate Ho
                     | injection Ho; clear Ho; intros; subst] ]
         end.

Lemma len_ge_1 {A} (l : list A) : (len l <? 1) = false -> l <> [].
Proof.
  intros H ->. cbn in H. discriminate H.
Qed.

(** A reply handed back without an error is not empty, is no KRB-ERROR
    and fits the read buffer. *)
Theorem SendToKDC_success_payload (cfg : Config) (b rb : bytes)
    (t t' : trace) :
  SendToKDC net cfg b t = (Ret (rb, None), t') ->
  rb <> [] /\ KRBError_Unmarshal net rb = None
  /\ (List.length rb <= bufsize)%nat.
Proof.
  unfold SendToKDC, bind, ret. walk.
  all: try (let H := fresh in intros H; discriminate H).
  all: let H := fresh in
       let Hc := fresh "Hc" in
       intros H; injection H as Hc _;
       apply checkForKRBError_ok in Hc; destruct Hc as [-> ?];
       split; [apply len_ge_1; assumption|]; split; [assumption|];
       exchanges; assumption.
Qed.

(** The exchanges of one call: three at most, each with a KDC listed
    for the default realm, each carrying the request as it is (UDP) or
    behind its length prefix (TCP); and when udp_preference_limit is 1,
    one at most and none over UDP. *)
Theorem SendToKDC_exchanges (cfg : Config) (b : bytes) (t t' : trace)
    (o : outcome (bytes * option error)) :
  SendToKDC net cfg b t = (o, t') ->
  exists evs,
    t' = t ++ evs
    /\ (List.length evs <= 3)%nat
    /\ Forall (exchange_of (select_kdcs (Realms cfg) (Default_realm cfg)) b)
         evs
    /\ (Udp_preference_limit cfg = 1 ->
        (List.length evs <= 1)%nat
        /\ forallb (fun e => negb (is_udp e)) evs = true).
Proof.
  unfold SendToKDC, bind, ret. walk.
  all: take; exchanges.
  all: lazymatch goal with
       | |- exists evs, ?t = ?t ++ evs /\ _ =>
           exists []; split; [symmetry; apply app_nil_r|]
       | _ => rewrite <- ?app_assoc; eexists; split; [reflexivity|]
       end.
  all: cbn [app List.length]; split; [lia|].
  all: split;
       [ repeat (constructor; [cbn; split; [assumption | reflexivity]|]);
         constructor |].
  all: intros Hone;
       first
         [ match goal with
           | H : (Udp_preference_limit _ =? 1) = false |- _ =>
               apply Z.eqb_neq in H; contradiction
           end
         | cbn; split; [lia | reflexivity] ].
Qed.

(** When the request fits udp_preference_limit, what comes back
    without an error is always what the datagram socket read: a TCP
    exchange made on the way never supplies the result. *)
Theorem SendToKDC_udp_first_result (cfg : Config) (b rb : bytes)
    (t t' : trace) :
  Udp_preference_limit cfg <> 1 ->
  len b <= Udp_preference_limit cfg ->
  SendToKDC net cfg b t = (Ret (rb, None), t') ->
  exists kdc data err,
    In kdc (select_kdcs (Realms cfg) (Default_realm cfg))
    /\ udp_run net t kdc b = UDPRead data err
    /\ rb = firstn bufsize data.
Proof.
  intros Hone Hfit. apply Z.eqb_neq in Hone. apply Z.leb_le in Hfit.
  unfold SendToKDC, bind, ret. rewrite Hone, Hfit. walk.
  all: try (let H := fresh in intros H; discriminate H).
  all: let H := fresh in
       let Hc := fresh "Hc" in
       intros H; injection H as Hc _;
       apply checkForKRBError_ok in Hc; destruct Hc as [-> ?];
       match goal with
       | Hl : (len _ <? 1) = false |- _ => apply len_ge_1 in Hl
       end;
       exchanges;
       match goal with
       | Hd : (_ = [] /\ _) \/ _ |- _ =>
           destruct Hd as [[? ?] | (data & err & ? & ?)];
           [contradiction | eauto 6]
       end.
Qed.

(** When udp_preference_limit is 1, or the request exceeds it, what
    comes back without an error is the payload of the one TCP exchange
    the call made: after a failed TCP exchange a UDP fallback never
    supplies the result. *)
Theorem SendToKDC_tcp_result (cfg : Config) (b rb : bytes) (t t' : trace) :
  Udp_preference_limit cfg = 1 \/ Udp_preference_limit cfg < len b ->
  SendToKDC net cfg b t = (Ret (rb, None), t') ->
  exists kdc data,
    In kdc (select_kdcs (Realms cfg) (Default_realm cfg))
    /\ tcp_run net t kdc (frame b) = TCPRead data None
    /\ rb = skipn 4 (firstn bufsize data)
    /\ t' = t ++ [CallTCP kdc (frame b)].
Proof.
  intros Hmode.
  unfold SendToKDC, bind, ret. walk.
  all: try (let H := fresh in intros H; discriminate H).
  all: try match goal with
           | H1 : (Udp_preference_limit _ =? 1) = false,
             H2 : (len _ <=? Udp_preference_limit _) = true |- _ =>
               exfalso; apply Z.eqb_neq in H1; apply Z.leb_le in H2; lia
           end.
  all: let H := fresh in
       let Hc := fresh "Hc" in
       intros H; injection H as Hc Ht;
       apply checkForKRBError_ok in Hc; destruct Hc as [-> ?];
       match goal with
       | Hl : (len _ <? 1) = false |- _ => apply len_ge_1 in Hl
       end;
       exchanges; subst.
  all: match goal with
       | Hn : None = None -> _ |- _ =>
           destruct (Hn eq_refl) as (_ & data & ? & ?); eauto 8
       | Hs : Some _ <> None -> _ |- _ =>
           destruct (Hs ltac:(discriminate)) as [? | ?]; contradiction
       end.
Qed.

(** The loop over the realms stops at the first realm named
    [default_realm]. *)
Lemma select_kdcs_first (pre post : list Realm) (r : Realm) (d : string) :
  (forall r', In r' pre -> Realm_name r' <> d) ->
  Realm_name r = d ->
  select_kdcs (pre ++ r :: post) d = Kdc r.
Proof.
  intros Hpre Hr. induction pre as [|r' pre IH]; cbn [app select_kdcs].
  - rewrite Hr, String.eqb_refl. reflexivity.
  - destruct (String.eqb_spec (Realm_name r') d) as [He | _].
    + exfalso. apply (Hpre r'); [left; reflexivity | exact He].
    + apply IH. intros r0 Hin. apply Hpre. right. exact Hin.
Qed.

Lemma select_kdcs_none (realms : list Realm) (d : string) :
  (forall r, In r realms -> Realm_name r <> d) ->
  select_kdcs realms d = [].
Proof.
  intros Hno. induction realms as [|r realms IH]; cbn [select_kdcs];
    [reflexivity|].
  destruct (String.eqb_spec (Realm_name r) d) as [He | _].
  - exfalso. apply (Hno r); [left; reflexivity | exact He].
  - apply IH. intros r0 Hin. apply Hno. right. exact Hin.
Qed.

(** When no realm of the configuration is named default_realm, or the
    first realm of that name lists no KDC (whatever a later realm of
    the same name lists), SendToKDC fails with the "No KDCs" error,
    hands back no octets and makes no exchange. *)
Theorem SendToKDC_no_kdc (cfg : Config) (b : bytes) (t : trace) :
  (forall r, In r (Realms cfg) -> Realm_name r <> Default_realm cfg)
  \/ (exists pre r post,
        Realms cfg = pre ++ r :: post
        /\ (forall r', In r' pre -> Realm_name r' <> Default_realm cfg)
        /\ Realm_name r = Default_realm cfg
        /\ Kdc r = []) ->
  SendToKDC net cfg b t
  = (Ret ([], Some (ErrNoKDCs (Default_realm cfg))), t).
Proof.
  intros Hcfg.
  assert (Hsel : select_kdcs (Realms cfg) (Default_realm cfg) = []).
  { destruct Hcfg as [Hno | (pre & r & post & -> & Hpre & Hr & Hk)].
    - apply select_kdcs_none. exact Hno.
    - rewrite select_kdcs_first by assumption. exact Hk. }
  unfold SendToKDC. rewrite Hsel. reflexivity.
Qed.

Lemma octet_value (z : Z) : Z.of_N (Byte.to_N (octet z)) = z mod 256.
Proof.
  unfold octet.
  assert (Hb : 0 <= z mod 256 < 256) by (apply Z.mod_pos_bound; lia).
  destruct (Byte.of_N (Z.to_N (z mod 256))) as [c|] eqn:Hc.
  - apply Byte.to_of_N in Hc. rewrite Hc. lia.
  - apply Byte.of_N_None_iff in Hc. lia.
Qed.

(** The stream gets the request behind four octets that read, most
    significant first, as its length; the top bit of the first octet is
    clear exactly when the request is shorter than 2^31 octets. *)
Theorem sendTCP_writes_length_prefix (kdc : string) (b : bytes) (t : trace) :
  len b < 2 ^ 32 ->
  snd (sendTCP net kdc b t) = t ++ [CallTCP kdc (frame b)]
  /\ BigEndian_Uint32 (firstn 4 (frame b)) = Some (len b)
  /\ skipn 4 (frame b) = b
  /\ (Z.of_N (Byte.to_N (hd x00 (frame b))) < 128 <-> len b < 2 ^ 31).
Proof.
  intros Hlen.
  assert (H0 : 0 <= len b) by (unfold len; lia).
  split.
  { destruct (sendTCP net kdc b t) as [o t'] eqn:H.
    apply sendTCP_spec in H. destruct H as [-> _]. reflexivity. }
  unfold frame, BigEndian_uint32, uint32.
  cbn [app firstn skipn hd BigEndian_Uint32].
  rewrite !octet_value, !Z.shiftr_div_pow2 by lia.
  rewrite (Z.mod_small (len b) (2 ^ 32)) by lia.
  change (2 ^ 32) with 4294967296 in *. change (2 ^ 31) with 2147483648.
  change (2 ^ 24) with 16777216. change (2 ^ 16) with 65536.
  change (2 ^ 8) with 256.
  split; [f_equal; Z.div_mod_to_equations; lia|].
  split; [reflexivity|].
  split; intros H; Z.div_mod_to_equations; lia.
Qed.

End AnyNetwork.

#[local] Transparent bufsize.

(** *** On the toy KDC *)

Lemma SendToKDC_success_payload_witness :
  SendToKDC net_too_big cfg_tcp request []
  = (Ret (tcp_payload, None), [CallTCP kdc1 framed_request])
  /\ tcp_payload <> []
  /\ KRBError_Unmarshal net_too_big tcp_payload = None
  /\ (List.length tcp_payload <= bufsize)%nat.
Proof.
  split; [reflexivity|].
  exact (@SendToKDC_success_payload net_too_big cfg_tcp request tcp_payload
           [] [CallTCP kdc1 framed_request] eq_refl).
Defined.

Lemma SendToKDC_exchanges_witness :
  SendToKDC net_too_big cfg_udp request []
  = (Ret (too_big, Some (ErrKRB (mkKRBError 52 ""))),
     [CallUDP kdc1 request; CallTCP kdc1 framed_request;
      CallTCP kdc1 framed_request])
  /\ exists evs,
       [CallUDP kdc1 request; CallTCP kdc1 framed_request;
        CallTCP kdc1 framed_request] = [] ++ evs
       /\ (List.length evs <= 3)%nat
       /\ Forall (exchange_of [kdc1] request) evs
       /\ (Udp_preference_limit cfg_udp = 1 ->
           (List.length evs <= 1)%nat
           /\ forallb (fun e => negb (is_udp e)) evs = true).
Proof.
  split; [reflexivity|].
  exact (@SendToKDC_exchanges net_too_big cfg_udp request [] _ _ eq_refl).
Defined.

Lemma SendToKDC_udp_first_result_witness :
  Udp_preference_limit cfg_udp <> 1
  /\ len request <= Udp_preference_limit cfg_udp
  /\ SendToKDC net_udp_reply cfg_udp request []
     = (Ret (tcp_payload, None), [CallUDP kdc1 request])
  /\ exists kdc data err,
       In kdc [kdc1]
       /\ udp_run net_udp_reply [] kdc request = UDPRead data err
       /\ tcp_payload = firstn bufsize data.
Proof.
  assert (H1 : Udp_preference_limit cfg_udp <> 1) by discriminate.
  assert (H2 : len request <= Udp_preference_limit cfg_udp)
    by (vm_compute; discriminate).
  split; [exact H1|]. split; [exact H2|]. split; [reflexivity|].
  exact (@SendToKDC_udp_first_result net_udp_reply cfg_udp request
           tcp_payload [] [CallUDP kdc1 request] H1 H2 eq_refl).
Defined.

Lemma SendToKDC_tcp_result_witness :
  Udp_preference_limit cfg_tcp = 1
  /\ exists kdc data,
       In kdc [kdc1]
       /\ tcp_run net_too_big [] kdc (frame request) = TCPRead data None
       /\ tcp_payload = skipn 4 (firstn bufsize data)
       /\ [CallTCP kdc1 framed_request] = [] ++ [CallTCP kdc (frame request)].
Proof.
  split; [reflexivity|].
  exact (@SendToKDC_tcp_result net_too_big cfg_tcp request tcp_payload
           [] [CallTCP kdc1 framed_request] (or_introl eq_refl) eq_refl).
Defined.

Lemma SendToKDC_no_kdc_witness :
  SendToKDC net_too_big cfg_other_realm request []
  = (Ret ([], Some (ErrNoKDCs "EXAMPLE.COM")), [])
  /\ SendToKDC net_too_big cfg_empty_first request []
     = (Ret ([], Some (ErrNoKDCs "EXAMPLE.COM")), []).
Proof.
  split.
  - apply (@SendToKDC_no_kdc net_too_big cfg_other_realm request []).
    left. intros r [<- | []]. discriminate.
  - apply (@SendToKDC_no_kdc net_too_big cfg_empty_first request []).
    right. exists [], (mkRealm "EXAMPLE.COM" []),
      [mkRealm "EXAMPLE.COM" [kdc1]].
    split; [reflexivity|]. split; [intros r' []|].
    split; reflexivity.
Defined.

Lemma sendTCP_writes_length_prefix_witness :
  len request < 2 ^ 32
  /\ BigEndian_Uint32 (firstn 4 (frame request)) = Some 5
  /\ skipn 4 (frame request) = request.
Proof.
  assert (H : len request < 2 ^ 32) by reflexivity.
  split; [exact H|].
  destruct (@sendTCP_writes_length_prefix net_short kdc1 request [] H)
    as (_ & Hdec & Hrest & _).
  split; [exact Hdec | exact Hrest].
Defined.

End TransportExtra.

(** * Further properties of decryption and validation *)

Module MessagesExtra.

Import KDCRepFields Messages Fixture MessagesFacts.

(** Turn the recorded outcomes of the tests into equations and
    bounds. *)
Ltac unbool :=
  repeat match goal with
         | H : orb _ _ = false |- _ =>
             apply orb_false_iff in H; destruct H
         | H : negb _ = false |- _ => apply negb_false_iff in H
         | H : Z.eqb _ _ = true |- _ => apply Z.eqb_eq in H
         | H : String.eqb _ _ = true |- _ => apply String.eqb_eq in H
         | H : exceeds _ _ = false |- _ =>
             unfold exceeds in H; apply Z.ltb_ge in H
         end.

Lemma is_nil_false {A} (s : option (list A)) : is_nil s = false -> s <> None.
Proof. destruct s; [discriminate | intros H; discriminate H]. Qed.

Lemma addresses_checked (X : Collaborators) (a b : list HostAddress) :
  (0 <? Transport.len b) && negb (HostAddressesEqual X a b) = false ->
  b <> [] -> HostAddressesEqual X a b = true.
Proof.
  intros H Hb. apply andb_false_iff in H. destruct H as [H | H].
  - destruct b; [contradiction|]. cbn in H. discriminate H.
  - apply negb_false_iff in H. exact H.
Qed.

Section Soundness.

Variable X : Collaborators.

Lemma ASRep_accept_inv (clk : Clock) (cfg : Config)
    (creds : Credentials X) (asReq : ASReq) (k k' : ASRep)
    (e : option error) :
  ASRep_IsValid X clk cfg creds asReq k = (Ret (true, e), k') ->
  let body := KDCReqFields.ReqBody asReq in
  let enc := DecryptedEncPart k' in
  e = None
  /\ (exists key, ASRep_DecryptEncPart X creds k = ((key, None), k'))
  /\ NameType (CName k) = NameType (KDCReqBody.CName body)
  /\ NameString (CName k) <> None
  /\ CRealm k = KDCReqBody.Realm body
  /\ EncKDCRepPart.Nonce enc = KDCReqBody.Nonce body
  /\ NameType (EncKDCRepPart.SName enc) = NameType (KDCReqBody.SName body)
  /\ NameString (EncKDCRepPart.SName enc) <> None
  /\ EncKDCRepPart.SRealm enc = KDCReqBody.Realm body
  /\ (KDCReqBody.Addresses body <> [] ->
      HostAddressesEqual X (EncKDCRepPart.CAddr enc)
        (KDCReqBody.Addresses body) = true)
  /\ Time_Sub (clk 0%nat) (EncKDCRepPart.AuthTime enc) <= Clockskew cfg
  /\ Time_Sub (EncKDCRepPart.AuthTime enc) (clk 0%nat) <= Clockskew cfg.
Proof.
  unfold ASRep_IsValid. cbv zeta.
  do 4 (head_step; try reject).
  destruct (ASRep_DecryptEncPart X creds k) as [[key [err|]] k1] eqn:Hdec;
    [reject|].
  repeat (head_step; try reject).
  all: let H := fresh in intros H; inversion H; subst; clear H.
  all: match goal with
       | Ha : _ && negb (HostAddressesEqual _ _ _) = false |- _ =>
           pose proof (@addresses_checked _ _ _ Ha)
       end.
  all: unbool.
  all: repeat match goal with
              | H : is_nil _ = false |- _ => apply is_nil_false in H
              end.
  all: repeat split; eauto.
Qed.

(** What an accepted AS-REP has passed: there is no error beside the
    verdict; the reply left behind is the one ASRep.DecryptEncPart
    produced; name type, realm, nonce and service realm equal those of
    the request; neither name sequence is nil; the addresses, when the
    request lists any, compare equal; and the clock read is within the
    skew of auth_time on both sides. *)
Theorem ASRep_IsValid_accept_sound (clk : Clock) (cfg : Config)
    (creds : Credentials X) (asReq : ASReq) (k k' : ASRep)
    (e : option error) :
  ASRep_IsValid X clk cfg creds asReq k = (Ret (true, e), k') ->
  let body := KDCReqFields.ReqBody asReq in
  let enc := DecryptedEncPart k' in
  e = None
  /\ (exists key, ASRep_DecryptEncPart X creds k = ((key, None), k'))
  /\ NameType (CName k) = NameType (KDCReqBody.CName body)
  /\ NameString (CName k) <> None
  /\ CRealm k = KDCReqBody.Realm body
  /\ EncKDCRepPart.Nonce enc = KDCReqBody.Nonce body
  /\ NameType (EncKDCRepPart.SName enc) = NameType (KDCReqBody.SName body)
  /\ NameString (EncKDCRepPart.SName enc) <> None
  /\ EncKDCRepPart.SRealm enc = KDCReqBody.Realm body
  /\ (KDCReqBody.Addresses body <> [] ->
      HostAddressesEqual X (EncKDCRepPart.CAddr enc)
        (KDCReqBody.Addresses body) = true)
  /\ Time_Sub (clk 0%nat) (EncKDCRepPart.AuthTime enc) <= Clockskew cfg
  /\ Time_Sub (EncKDCRepPart.AuthTime enc) (clk 0%nat) <= Clockskew cfg.
Proof.
  exact (@ASRep_accept_inv clk cfg creds asReq k k' e).
Qed.

(** A skew test of TGSRep.IsValid that passes has read the clock twice
    and found both differences within the skew; one that fails has read
    it once or twice. *)
Lemma skew_exceeded_false (clk : Clock) (skew : Duration) (x : Time)
    (n m : nat) :
  skew_exceeded clk skew x n = (false, m) ->
  m = S (S n)
  /\ Time_Sub (clk n) x <= skew /\ Time_Sub x (clk (S n)) <= skew.
Proof.
  unfold skew_exceeded.
  destruct (exceeds (Time_Sub (clk n) x) skew) eqn:H1; [reject|].
  intros H. injection H as H2 <-. unbool. auto.
Qed.

Lemma skew_exceeded_true (clk : Clock) (skew : Duration) (x : Time)
    (n m : nat) :
  skew_exceeded clk skew x n = (true, m) -> m = S n \/ m = S (S n).
Proof.
  unfold skew_exceeded.
  destruct (exceeds (Time_Sub (clk n) x) skew);
    intros H; injection H; intros; subst; auto.
Qed.

Lemma TGSRep_accept_inv (clk : Clock) (cfg : Config)
    (tgsReq : TGSReq) (k : TGSRep) (e : option error) :
  TGSRep_IsValid X clk cfg tgsReq k = Ret (true, e) ->
  let body := KDCReqFields.ReqBody tgsReq in
  let enc := DecryptedEncPart k in
  e = None
  /\ NameType (CName k) = NameType (KDCReqBody.CName body)
  /\ NameString (CName k) <> None
  /\ CRealm k = KDCReqBody.Realm body
  /\ EncKDCRepPart.Nonce enc = KDCReqBody.Nonce body
  /\ NameType (Ticket.SName (Ticket k)) = NameType (KDCReqBody.SName body)
  /\ NameString (Ticket.SName (Ticket k)) <> None
  /\ NameType (EncKDCRepPart.SName enc) = NameType (KDCReqBody.SName body)
  /\ NameString (EncKDCRepPart.SName enc) <> None
  /\ EncKDCRepPart.SRealm enc = KDCReqBody.Realm body
  /\ (KDCReqBody.Addresses body <> [] ->
      HostAddressesEqual X (EncKDCRepPart.CAddr enc)
        (KDCReqBody.Addresses body) = true)
  /\ ((Time_Sub (clk 0%nat) (EncKDCRepPart.StartTime enc) <= Clockskew cfg
       /\ Time_Sub (EncKDCRepPart.StartTime enc) (clk 1%nat)
          <= Clockskew cfg)
      \/ (exists n,
            (n = 1 \/ n = 2)%nat
            /\ Time_Sub (clk n) (EncKDCRepPart.AuthTime enc) <= Clockskew cfg
            /\ Time_Sub (EncKDCRepPart.AuthTime enc) (clk (S n))
               <= Clockskew cfg)).
Proof.
  unfold TGSRep_IsValid. cbv zeta.
  repeat (head_step; try reject).
  all: let H := fresh in intros H; inversion H; subst; clear H.
  all: match goal with
       | Ha : _ && negb (HostAddressesEqual _ _ _) = false |- _ =>
           pose proof (@addresses_checked _ _ _ Ha)
       end.
  all: unbool.
  all: repeat match goal with
              | H : is_nil _ = false |- _ => apply is_nil_false in H
              end.
  all: repeat match goal with
              | |- _ /\ _ => split
              end; eauto.
  - right.
    match goal with
    | H1 : skew_exceeded _ _ _ 0 = (true, ?n),
      H2 : skew_exceeded _ _ _ ?n = (false, _) |- _ =>
        apply skew_exceeded_true in H1;
        apply skew_exceeded_false in H2;
        destruct H2 as (_ & ? & ?); exists n; auto
    end.
  - left.
    match goal with
    | H1 : skew_exceeded _ _ _ 0 = (false, _) |- _ =>
        apply skew_exceeded_false in H1; destruct H1 as (_ & ? & ?); auto
    end.
Qed.

(** What an accepted TGS-REP has passed: no error beside the verdict;
    name types, realm, nonce and service realm equal those of the
    request; none of the three name sequences (client, ticket service,
    encrypted-part service) is nil; the addresses, when the request
    lists any, compare equal; and start_time, or else auth_time, lies
    within the skew of two successive readings of the clock. *)
Theorem TGSRep_IsValid_accept_sound (clk : Clock) (cfg : Config)
    (tgsReq : TGSReq) (k : TGSRep) (e : option error) :
  TGSRep_IsValid X clk cfg tgsReq k = Ret (true, e) ->
  let body := KDCReqFields.ReqBody tgsReq in
  let enc := DecryptedEncPart k in
  e = None
  /\ NameType (CName k) = NameType (KDCReqBody.CName body)
  /\ NameString (CName k) <> None
  /\ CRealm k = KDCReqBody.Realm body
  /\ EncKDCRepPart.Nonce enc = KDCReqBody.Nonce body
  /\ NameType (Ticket.SName (Ticket k)) = NameType (KDCReqBody.SName body)
  /\ NameString (Ticket.SName (Ticket k)) <> None
  /\ NameType (EncKDCRepPart.SName enc) = NameType (KDCReqBody.SName body)
  /\ NameString (EncKDCRepPart.SName enc) <> None
  /\ EncKDCRepPart.SRealm enc = KDCReqBody.Realm body
  /\ (KDCReqBody.Addresses body <> [] ->
      HostAddressesEqual X (EncKDCRepPart.CAddr enc)
        (KDCReqBody.Addresses body) = true)
  /\ ((Time_Sub (clk 0%nat) (EncKDCRepPart.StartTime enc) <= Clockskew cfg
       /\ Time_Sub (EncKDCRepPart.StartTime enc) (clk 1%nat)
          <= Clockskew cfg)
      \/ (exists n,
            (n = 1 \/ n = 2)%nat
            /\ Time_Sub (clk n) (EncKDCRepPart.AuthTime enc) <= Clockskew cfg
            /\ Time_Sub (EncKDCRepPart.AuthTime enc) (clk (S n))
               <= Clockskew cfg)).
Proof.
  exact (@TGSRep_accept_inv clk cfg tgsReq k e).
Qed.

(** Verdict and error go together: both IsValid functions hand back
    true with no error or false with one, never another pair. *)
Theorem IsValid_verdict_and_error (clk : Clock) (cfg : Config)
    (creds : Credentials X) (asReq : ASReq) (tgsReq : TGSReq)
    (k : ASRep) (kt : TGSRep) :
  (forall v e, fst (ASRep_IsValid X clk cfg creds asReq k) = Ret (v, e) ->
               (v = true <-> e = None))
  /\ (forall v e, TGSRep_IsValid X clk cfg tgsReq kt = Ret (v, e) ->
                  (v = true <-> e = None)).
Proof.
  split; intros v e.
  - destruct (ASRep_IsValid X clk cfg creds asReq k) as [r k'] eqn:H.
    cbn [fst]. revert H. unfold ASRep_IsValid. cbv zeta.
    repeat head_step.
    all: let H := fresh in
         let Hr := fresh in
         intros H; inversion H; subst; clear H;
         intros Hr; inversion Hr; subst; clear Hr;
         split; intros; congruence.
  - unfold TGSRep_IsValid. cbv zeta.
    repeat head_step.
    all: let H := fresh in
         intros H; inversion H; subst; clear H;
         split; intros; congruence.
Qed.

Lemma set_DecryptedEncPart_same (k : KDCRepFields.t) :
  set_DecryptedEncPart k (DecryptedEncPart k) = k.
Proof. destruct k. reflexivity. Qed.

(** Decryption and validation touch nothing of a reply but its
    DecryptedEncPart, and a failed decryption not even that. *)
Theorem replies_change_only_in_DecryptedEncPart (clk : Clock) (cfg : Config)
    (creds : Credentials X) (asReq : ASReq) (key : EncryptionKey)
    (k : KDCRepFields.t) :
  let after_valid := snd (ASRep_IsValid X clk cfg creds asReq k) in
  let as_dec := ASRep_DecryptEncPart X creds k in
  let tgs_dec := TGSRep_DecryptEncPart X key k in
  after_valid = set_DecryptedEncPart k (DecryptedEncPart after_valid)
  /\ snd as_dec = set_DecryptedEncPart k (DecryptedEncPart (snd as_dec))
  /\ snd tgs_dec = set_DecryptedEncPart k (DecryptedEncPart (snd tgs_dec))
  /\ (snd (fst as_dec) <> None -> snd as_dec = k)
  /\ (fst tgs_dec <> None -> snd tgs_dec = k).
Proof.
  cbv zeta.
  assert (Has : snd (ASRep_DecryptEncPart X creds k)
                = set_DecryptedEncPart k
                    (DecryptedEncPart (snd (ASRep_DecryptEncPart X creds k)))
                /\ (snd (fst (ASRep_DecryptEncPart X creds k)) <> None ->
                    snd (ASRep_DecryptEncPart X creds k) = k)).
  { destruct (ASRep_DecryptEncPart X creds k) as [[key' [e|]] k1] eqn:Hd;
      cbn [fst snd].
    - apply ASRep_DecryptEncPart_err_inv in Hd. subst k1.
      split; [symmetry; apply set_DecryptedEncPart_same | reflexivity].
    - apply ASRep_DecryptEncPart_ok_inv in Hd.
      destruct Hd as (b & denc & _ & _ & ->).
      split; [reflexivity | congruence]. }
  destruct Has as [Has1 Has2].
  split; [|split; [exact Has1|split; [|split; [exact Has2|]]]].
  - destruct (ASRep_IsValid X clk cfg creds asReq k) as [r k'] eqn:H.
    cbn [snd].
    destruct (@ASRep_IsValid_set X clk cfg creds asReq k k' r
                zero_EncKDCRepPart H) as [[-> _] | (denc & -> & _)].
    + symmetry. apply set_DecryptedEncPart_same.
    + reflexivity.
  - unfold TGSRep_DecryptEncPart.
    destruct (crypto_DecryptEncPart X (EncPart k) key _) as [b [e|]];
      cbn [snd]; [symmetry; apply set_DecryptedEncPart_same|].
    destruct (EncKDCRepPart_Unmarshal X zero_EncKDCRepPart b) as [d [e|]];
      cbn [snd]; [symmetry; apply set_DecryptedEncPart_same | reflexivity].
  - unfold TGSRep_DecryptEncPart.
    destruct (crypto_DecryptEncPart X (EncPart k) key _) as [b [e|]];
      cbn [fst snd]; [reflexivity|].
    destruct (EncKDCRepPart_Unmarshal X zero_EncKDCRepPart b) as [d [e|]];
      cbn [fst snd]; [reflexivity | congruence].
Qed.

(** Both directions of the difference within the skew, as one bound on
    its absolute value: Time.Sub saturates at the largest Duration, so
    the skew has to lie below it. *)
Lemma skew_window (t a skew : Z) :
  skew < maxDuration ->
  exceeds (Time_Sub t a) skew || exceeds (Time_Sub a t) skew
  = negb (Z.abs (t - a) <=? skew).
Proof.
  unfold exceeds, Time_Sub, maxDuration, minDuration. intros Hs.
  destruct (Z.abs (t - a) <=? skew) eqn:Hab; cbn [negb].
  - apply Z.leb_le in Hab. apply orb_false_iff. split; apply Z.ltb_ge;
      repeat match goal with
             | |- context [if ?c then _ else _] =>
                 let E := fresh in
                 destruct c eqn:E;
                 [apply Z.ltb_lt in E | apply Z.ltb_ge in E]
             end; lia.
  - apply Z.leb_gt in Hab. apply orb_true_iff.
    destruct (Z.le_ge_cases a t) as [Hle | Hle]; [left | right];
      apply Z.ltb_lt;
      repeat match goal with
             | |- context [if ?c then _ else _] =>
                 let E := fresh in
                 destruct c eqn:E;
                 [apply Z.ltb_lt in E | apply Z.ltb_ge in E]
             end; lia.
Qed.

(** The whole window of an AS-REP, for a skew below the largest
    Duration: a reply accepted at some time is accepted at another
    exactly when the clock then reads within the skew of auth_time, and
    turned down for clock skew at every other time. *)
Theorem ASRep_IsValid_skew_window (clk0 clk : Clock) (cfg : Config)
    (creds : Credentials X) (asReq : ASReq) (k k0 : ASRep) :
  Clockskew cfg < maxDuration ->
  ASRep_IsValid X clk0 cfg creds asReq k = (Ret (true, None), k0) ->
  ASRep_IsValid X clk cfg creds asReq k
  = (if Z.abs (clk 0%nat - EncKDCRepPart.AuthTime (DecryptedEncPart k0))
        <=? Clockskew cfg
     then Ret (true, None)
     else Ret (false, Some ErrClockSkew), k0).
Proof.
  intros Hs H.
  rewrite (@ASRep_IsValid_at_other_time X clk0 clk _ _ _ _ _ H).
  rewrite (skew_window _ _ Hs).
  destruct (Z.abs _ <=? Clockskew cfg); reflexivity.
Qed.

(** The window of a TGS-REP under a clock that stands still: a reply
    accepted at some time is accepted at [now] exactly when [now] is
    within the skew of start_time or of auth_time. *)
Theorem TGSRep_IsValid_skew_window (clk0 : Clock) (now : Time) (cfg : Config)
    (tgsReq : TGSReq) (k : TGSRep) :
  Clockskew cfg < maxDuration ->
  TGSRep_IsValid X clk0 cfg tgsReq k = Ret (true, None) ->
  TGSRep_IsValid X (clock_at now) cfg tgsReq k
  = if (Z.abs (now - EncKDCRepPart.StartTime (DecryptedEncPart k))
        <=? Clockskew cfg)
       || (Z.abs (now - EncKDCRepPart.AuthTime (DecryptedEncPart k))
           <=? Clockskew cfg)
    then Ret (true, None)
    else Ret (false, Some ErrClockSkew).
Proof.
  intros Hs H.
  rewrite (@TGSRep_IsValid_at_other_time X clk0 (clock_at now) _ _ _ H).
  pose proof (skew_exceeded_still now (Clockskew cfg)
                (EncKDCRepPart.StartTime (DecryptedEncPart k)) 0) as H1.
  destruct (skew_exceeded (clock_at now) (Clockskew cfg)
              (EncKDCRepPart.StartTime (DecryptedEncPart k)) 0) as [o1 n].
  pose proof (skew_exceeded_still now (Clockskew cfg)
                (EncKDCRepPart.AuthTime (DecryptedEncPart k)) n) as H2.
  destruct (skew_exceeded (clock_at now) (Clockskew cfg)
              (EncKDCRepPart.AuthTime (DecryptedEncPart k)) n) as [o2 m].
  cbn [fst] in H1, H2.
  rewrite (skew_window _ _ Hs) in H1. rewrite (skew_window _ _ Hs) in H2.
  subst o1 o2.
  destruct (Z.abs _ <=? Clockskew cfg); cbn [negb orb]; [reflexivity|].
  destruct (Z.abs _ <=? Clockskew cfg); reflexivity.
Qed.

(** With a negative clockskew in the configuration ASRep.IsValid
    accepts nothing, whatever the clock reads. *)
Theorem ASRep_IsValid_negative_skew (clk : Clock) (cfg : Config)
    (creds : Credentials X) (asReq : ASReq) (k : ASRep) (e : option error) :
  Clockskew cfg < 0 ->
  fst (ASRep_IsValid X clk cfg creds asReq k) <> Ret (true, e).
Proof.
  intros Hneg Hacc.
  destruct (ASRep_IsValid X clk cfg creds asReq k) as [r k'] eqn:H.
  cbn [fst] in Hacc. subst r.
  apply ASRep_accept_inv in H. cbv zeta in H.
  destruct H as (_ & _ & _ & _ & _ & _ & _ & _ & _ & _ & H1 & H2).
  revert H1 H2. unfold Time_Sub, minDuration, maxDuration.
  repeat match goal with
         | |- context [if ?c then _ else _] =>
             let E := fresh in
             destruct c eqn:E;
             [apply Z.ltb_lt in E | apply Z.ltb_ge in E]
         end; lia.
Qed.

Lemma fast_loop_None_iff (key : EncryptionKey) (asReq : ASReq)
    (pas : list types.PAData) :
  fast_loop X key asReq pas = None <->
  Forall (fun pa => PADataType pa = patype_PA_REQ_ENC_PA_REP X ->
                    FAST.entry_verifies X key asReq pa) pas.
Proof.
  induction pas as [|pa rest IH]; cbn [fast_loop].
  - split; [intros _; constructor | reflexivity].
  - rewrite Forall_cons_iff, <- IH. unfold FAST.entry_verifies.
    destruct (Z.eqb_spec (PADataType pa) (patype_PA_REQ_ENC_PA_REP X))
      as [Hty | Hty]; [|tauto].
    destruct (PAReqEncPARep_Unmarshal X (PADataValue pa))
      as [pafast [e1|]]; cbn [fst snd].
    { split; [reject|]. intros [Hpa _].
      destruct (Hpa Hty) as (Hbad & _). discriminate Hbad. }
    destruct (GetChksumEtype X (ChksumType pafast)) as [etype [e2|]];
      cbn [fst snd].
    { split; [reject|]. intros [Hpa _].
      destruct (Hpa Hty) as (_ & Hbad & _). discriminate Hbad. }
    destruct (ASReq_Marshal X asReq) as [ab em]; cbn [fst].
    destruct (VerifyChecksum X (KeyValue key) (Chksum pafast) ab
                keyusage_KEY_USAGE_AS_REQ etype); cbn [negb].
    + tauto.
    + split; [reject|]. intros [Hpa _].
      destruct (Hpa Hty) as (_ & _ & Hbad). discriminate Hbad.
Qed.

(** The FAST loop passes exactly when every entry of type
    PA_REQ_ENC_PA_REP verifies; entries of other types are passed over,
    so a list without such an entry passes. *)
Theorem fast_loop_passes_iff (key : EncryptionKey) (asReq : ASReq)
    (pas : list types.PAData) :
  fast_loop X key asReq pas = None <->
  Forall (fun pa => PADataType pa = patype_PA_REQ_ENC_PA_REP X ->
                    FAST.entry_verifies X key asReq pa) pas.
Proof.
  exact (@fast_loop_None_iff key asReq pas).
Qed.

(** An AS-REP accepted for a request that asked for the encrypted
    PA-REP, with the EncPARep flag set in the reply, holds two entries
    or more of encrypted pre-authentication data, PA_FX_FAST among
    them, and each of its entries of type PA_REQ_ENC_PA_REP verifies
    under the key ASRep.DecryptEncPart handed back. *)
Theorem ASRep_IsValid_accept_FAST (clk : Clock) (cfg : Config)
    (creds : Credentials X) (asReq : ASReq) (k k' : ASRep)
    (e : option error) :
  ASRep_IsValid X clk cfg creds asReq k = (Ret (true, e), k') ->
  PADataSequence_Contains X (KDCReqFields.PAData asReq)
    (patype_PA_REQ_ENC_PA_REP X) = true ->
  IsFlagSet X (EncKDCRepPart.Flags (DecryptedEncPart k')) (types_EncPARep X)
  = true ->
  let padata := EncKDCRepPart.EncPAData (DecryptedEncPart k') in
  2 <= Transport.len padata
  /\ PADataSequence_Contains X padata (patype_PA_FX_FAST X) = true
  /\ exists key,
       ASRep_DecryptEncPart X creds k = ((key, None), k')
       /\ Forall (fun pa => PADataType pa = patype_PA_REQ_ENC_PA_REP X ->
                            FAST.entry_verifies X key asReq pa) padata.
Proof.
  unfold ASRep_IsValid. cbv zeta.
  do 4 (head_step; try reject).
  destruct (ASRep_DecryptEncPart X creds k) as [[key [err|]] k1] eqn:Hdec;
    [reject|].
  repeat (head_step; try reject).
  all: let H := fresh in intros H; inversion H; subst; clear H.
  all: intros Hreq Hflag.
  - match goal with
    | Hl : orb (Z.ltb _ 2) _ = false |- _ =>
        apply orb_false_iff in Hl; destruct Hl as [Hl1 Hl2];
        apply Z.ltb_ge in Hl1; apply negb_false_iff in Hl2
    end.
    split; [assumption|]. split; [assumption|].
    exists key. split; [reflexivity|].
    apply fast_loop_None_iff. assumption.
  - match goal with
    | Hc : andb _ _ = false |- _ => rewrite Hreq, Hflag in Hc; discriminate Hc
    end.
Qed.

End Soundness.

Section Envelopes.

Import Envelope.

Variable D : Decoders.

(** Unmarshal assigns a struct literal that names no DecryptedEncPart. *)
Lemma Unmarshal_fills_zero (k : KDCRepFields.t) (b : bytes) :
  (forall k', ASRep_Unmarshal D k b = (None, k') ->
              DecryptedEncPart k' = zero_EncKDCRepPart)
  /\ (forall k', TGSRep_Unmarshal D k b = (None, k') ->
                 DecryptedEncPart k' = zero_EncKDCRepPart).
Proof.
  unfold ASRep_Unmarshal, TGSRep_Unmarshal. cbv zeta.
  split; intros k' H;
    match type of H with
    | context [asn1_UnmarshalKDCRep D b ?z ?tag] =>
        destruct (asn1_UnmarshalKDCRep D b z tag) as [m [e1|]];
        [discriminate H|];
        destruct (negb (marshalKDCRep.MsgType m =? _));
        [discriminate H|];
        destruct (UnmarshalTicket D _) as [tkt [e2|]];
        [discriminate H|];
        injection H as <-; reflexivity
    end.
Qed.

(** A reply that Unmarshal has filled carries the message type of its
    kind, the fields the decoder found, the decoded ticket and an empty
    DecryptedEncPart; a reply that Unmarshal fails on is left as it
    was. *)
Theorem Unmarshal_outcome (k : KDCRepFields.t) (b : bytes) :
  (forall k',
     ASRep_Unmarshal D k b = (None, k') ->
     MsgType k' = msgtype_KRB_AS_REP D
     /\ DecryptedEncPart k' = zero_EncKDCRepPart
     /\ exists m,
          asn1_UnmarshalKDCRep D b zero_marshalKDCRep asnAppTag_ASREP
          = (m, None)
          /\ UnmarshalTicket D (RawValue.Bytes (marshalKDCRep.Ticket m))
             = (Ticket k', None)
          /\ (PVNO k', MsgType k', PAData k', CRealm k', CName k', EncPart k')
             = (marshalKDCRep.PVNO m, marshalKDCRep.MsgType m,
                marshalKDCRep.PAData m, marshalKDCRep.CRealm m,
                marshalKDCRep.CName m, marshalKDCRep.EncPart m))
  /\ (forall k',
        TGSRep_Unmarshal D k b = (None, k') ->
        MsgType k' = msgtype_KRB_TGS_REP D
        /\ DecryptedEncPart k' = zero_EncKDCRepPart
        /\ exists m,
             asn1_UnmarshalKDCRep D b zero_marshalKDCRep asnAppTag_TGSREP
             = (m, None)
             /\ UnmarshalTicket D (RawValue.Bytes (marshalKDCRep.Ticket m))
                = (Ticket k', None)
             /\ (PVNO k', MsgType k', PAData k', CRealm k', CName k',
                 EncPart k')
                = (marshalKDCRep.PVNO m, marshalKDCRep.MsgType m,
                   marshalKDCRep.PAData m, marshalKDCRep.CRealm m,
                   marshalKDCRep.CName m, marshalKDCRep.EncPart m))
  /\ (forall e k', ASRep_Unmarshal D k b = (Some e, k') -> k' = k)
  /\ (forall e k', TGSRep_Unmarshal D k b = (Some e, k') -> k' = k).
Proof.
  unfold ASRep_Unmarshal, TGSRep_Unmarshal. cbv zeta.
  split; [|split; [|split]]; intros.
  1-2: match goal with
       | H : context [asn1_UnmarshalKDCRep ?d ?bb ?z ?tag] |- _ =>
           destruct (asn1_UnmarshalKDCRep d bb z tag) as [m [e1|]] eqn:Hm;
           [discriminate H|];
           destruct (negb (marshalKDCRep.MsgType m =? _)) eqn:Hty;
           [discriminate H|];
           destruct (UnmarshalTicket _ _) as [tkt [e2|]] eqn:Ht;
           [discriminate H|];
           injection H as <-; cbn [MsgType DecryptedEncPart Ticket PVNO
                                    PAData CRealm CName EncPart];
           apply negb_false_iff, Z.eqb_eq in Hty;
           split; [exact Hty|]; split; [reflexivity|];
           exists m; split; [reflexivity|]; split; [exact Ht | reflexivity]
       end.
  all: match goal with
       | H : context [asn1_UnmarshalKDCRep ?d ?bb ?z ?tag] |- _ =>
           destruct (asn1_UnmarshalKDCRep d bb z tag) as [m [e1|]];
           [injection H; auto|];
           destruct (negb (marshalKDCRep.MsgType m =? _));
           [injection H; auto|];
           destruct (UnmarshalTicket _ _) as [tkt [e2|]];
           [injection H; auto | discriminate H]
       end.
Qed.

(** A TGS-REP taken from the wire and not decrypted is never accepted:
    TGSRep.Unmarshal leaves DecryptedEncPart empty, and TGSRep.IsValid
    turns down the nil service name in it. *)
Theorem TGSRep_undecrypted_is_rejected (X : Collaborators) (clk : Clock)
    (cfg : Config) (tgsReq : TGSReq) (k k' : TGSRep) (b : bytes)
    (e : option error) :
  TGSRep_Unmarshal D k b = (None, k') ->
  TGSRep_IsValid X clk cfg tgsReq k' <> Ret (true, e).
Proof.
  intros Hu Hacc.
  destruct (Unmarshal_fills_zero k b) as [_ Htgs].
  apply Htgs in Hu.
  apply TGSRep_accept_inv in Hacc. cbv zeta in Hacc.
  destruct Hacc as (_ & _ & _ & _ & _ & _ & _ & _ & Hnil & _).
  rewrite Hu in Hnil. apply Hnil. reflexivity.
Qed.

End Envelopes.

(** *** On the toy KDC *)

Import Envelope EnvelopeFixture.

(** The good AS-REP is accepted at T0, with the nonce of the request
    and the clock within the skew. *)
Lemma ASRep_IsValid_accept_sound_witness :
  ASRep_IsValid toys (clock_at T0) cfg_udp creds_password (request_of alice)
    (reply alice x00 zero_EncKDCRepPart)
  = (Ret (true, None), reply alice x00 enc_good)
  /\ EncKDCRepPart.Nonce enc_good = 42
  /\ Time_Sub T0 (EncKDCRepPart.AuthTime enc_good) <= Clockskew cfg_udp.
Proof.
  split; [reflexivity|].
  pose proof (@ASRep_IsValid_accept_sound toys (clock_at T0) cfg_udp
                creds_password (request_of alice)
                (reply alice x00 zero_EncKDCRepPart)
                (reply alice x00 enc_good) None eq_refl) as H.
  cbv zeta in H.
  destruct H as (_ & _ & _ & _ & _ & Hn & _ & _ & _ & _ & Ht & _).
  split; [exact Hn | exact Ht].
Defined.

(** The good TGS-REP is accepted at T0: its ticket names the service
    asked for and the clock is within the skew of start_time. *)
Lemma TGSRep_IsValid_accept_sound_witness :
  TGSRep_IsValid toys (clock_at T0) cfg_udp (request_of alice)
    (reply alice x00 enc_good) = Ret (true, None)
  /\ NameString (Ticket.SName ticket_krbtgt) <> None
  /\ EncKDCRepPart.SRealm enc_good = "EXAMPLE.COM".
Proof.
  split; [reflexivity|].
  pose proof (@TGSRep_IsValid_accept_sound toys (clock_at T0) cfg_udp
                (request_of alice) (reply alice x00 enc_good) None eq_refl)
    as H.
  cbv zeta in H.
  destruct H as (_ & _ & _ & _ & _ & _ & Htk & _ & _ & Hsr & _).
  split; [exact Htk | exact Hsr].
Defined.

(** Skew 300s: accepted ten seconds after auth_time, turned down four
    hundred seconds after it. *)
Lemma ASRep_IsValid_skew_window_witness :
  Clockskew cfg_udp < maxDuration
  /\ ASRep_IsValid toys (clock_at (T0 + 10 * Second)) cfg_udp creds_password
       (request_of alice) (reply alice x00 zero_EncKDCRepPart)
     = (Ret (true, None), reply alice x00 enc_good)
  /\ ASRep_IsValid toys (clock_at (T0 + 400 * Second)) cfg_udp creds_password
       (request_of alice) (reply alice x00 zero_EncKDCRepPart)
     = (Ret (false, Some ErrClockSkew), reply alice x00 enc_good).
Proof.
  assert (Hs : Clockskew cfg_udp < maxDuration) by reflexivity.
  split; [exact Hs|]. split.
  - exact (@ASRep_IsValid_skew_window toys (clock_at T0)
             (clock_at (T0 + 10 * Second)) cfg_udp creds_password
             (request_of alice) (reply alice x00 zero_EncKDCRepPart)
             (reply alice x00 enc_good) Hs eq_refl).
  - exact (@ASRep_IsValid_skew_window toys (clock_at T0)
             (clock_at (T0 + 400 * Second)) cfg_udp creds_password
             (request_of alice) (reply alice x00 zero_EncKDCRepPart)
             (reply alice x00 enc_good) Hs eq_refl).
Defined.

(** The same window for the TGS-REP, with start_time ten minutes
    before auth_time: 500s after auth_time neither is within the skew,
    200s before it (400s after start_time) auth_time is. *)
Lemma TGSRep_IsValid_skew_window_witness :
  Clockskew cfg_udp < maxDuration
  /\ TGSRep_IsValid toys (clock_at (T0 + 500 * Second)) cfg_udp
       (request_of alice)
       (reply alice x00 (with_times enc_good T0 (T0 - 600 * Second)))
     = Ret (false, Some ErrClockSkew)
  /\ TGSRep_IsValid toys (clock_at (T0 - 200 * Second)) cfg_udp
       (request_of alice)
       (reply alice x00 (with_times enc_good T0 (T0 - 600 * Second)))
     = Ret (true, None).
Proof.
  assert (Hs : Clockskew cfg_udp < maxDuration) by reflexivity.
  split; [exact Hs|]. split.
  - exact (@TGSRep_IsValid_skew_window toys (clock_at T0)
             (T0 + 500 * Second) cfg_udp (request_of alice)
             (reply alice x00 (with_times enc_good T0 (T0 - 600 * Second)))
             Hs eq_refl).
  - exact (@TGSRep_IsValid_skew_window toys (clock_at T0)
             (T0 - 200 * Second) cfg_udp (request_of alice)
             (reply alice x00 (with_times enc_good T0 (T0 - 600 * Second)))
             Hs eq_refl).
Defined.

(** With clockskew -1s the good AS-REP is turned down at auth_time
    itself. *)
Lemma ASRep_IsValid_negative_skew_witness :
  Clockskew cfg_negative_skew < 0
  /\ fst (ASRep_IsValid toys (clock_at T0) cfg_negative_skew creds_password
            (request_of alice) (reply alice x00 zero_EncKDCRepPart))
     <> Ret (true, None).
Proof.
  assert (Hs : Clockskew cfg_negative_skew < 0) by reflexivity.
  split; [exact Hs|].
  exact (@ASRep_IsValid_negative_skew toys (clock_at T0) cfg_negative_skew
           creds_password (request_of alice)
           (reply alice x00 zero_EncKDCRepPart) None Hs).
Defined.

(** A reply to a FAST negotiation that is accepted: two entries,
    PA_FX_FAST among them. *)
Lemma ASRep_IsValid_accept_FAST_witness :
  ASRep_IsValid toys_fast (clock_at T0) cfg_udp creds_password request_fast
    (reply alice x00 zero_EncKDCRepPart)
  = (Ret (true, None), reply alice x00 enc_fast)
  /\ 2 <= Transport.len (EncKDCRepPart.EncPAData enc_fast)
  /\ PADataSequence_Contains toys_fast (EncKDCRepPart.EncPAData enc_fast) 136
     = true.
Proof.
  split; [reflexivity|].
  pose proof (@ASRep_IsValid_accept_FAST toys_fast (clock_at T0) cfg_udp
                creds_password request_fast
                (reply alice x00 zero_EncKDCRepPart)
                (reply alice x00 enc_fast) None eq_refl eq_refl eq_refl) as H.
  cbv zeta in H. destruct H as (Hlen & Hfx & _).
  split; [exact Hlen | exact Hfx].
Defined.

(** The toy AS-REP octets fill a reply of message type 11 with an empty
    DecryptedEncPart. *)
Lemma Unmarshal_outcome_witness :
  ASRep_Unmarshal toy_decoders (reply alice_admin x01 enc_good) as_rep_octets
  = (None,
     KDCRepFields.mk 5 11 [] "EXAMPLE.COM" alice ticket_krbtgt
       (mkEncryptedData 18 1 [x19; x00]) zero_EncKDCRepPart)
  /\ MsgType (snd (ASRep_Unmarshal toy_decoders
                     (reply alice_admin x01 enc_good) as_rep_octets))
     = msgtype_KRB_AS_REP toy_decoders
  /\ snd (ASRep_Unmarshal toy_decoders (reply alice x00 enc_good)
            tgs_rep_octets)
     = reply alice x00 enc_good.
Proof.
  split; [reflexivity|].
  destruct (@Unmarshal_outcome toy_decoders (reply alice_admin x01 enc_good)
              as_rep_octets) as (Hok & _ & _ & _).
  destruct (@Unmarshal_outcome toy_decoders (reply alice x00 enc_good)
              tgs_rep_octets) as (_ & _ & Herr & _).
  split.
  - destruct (Hok _ eq_refl) as (Hty & _). exact Hty.
  - exact (Herr (ErrExt "asn1: tags don't match") _ eq_refl).
Defined.

(** The toy TGS-REP octets, unmarshalled and validated without
    decryption, are turned down. *)
Lemma TGSRep_undecrypted_is_rejected_witness :
  TGSRep_Unmarshal toy_decoders (reply alice x00 enc_good) tgs_rep_octets
  = (None,
     KDCRepFields.mk 5 13 [] "EXAMPLE.COM" alice ticket_krbtgt
       (mkEncryptedData 18 1 [x19; x00]) zero_EncKDCRepPart)
  /\ TGSRep_IsValid toys (clock_at T0) cfg_udp (request_of alice)
       (KDCRepFields.mk 5 13 [] "EXAMPLE.COM" alice ticket_krbtgt
          (mkEncryptedData 18 1 [x19; x00]) zero_EncKDCRepPart)
     <> Ret (true, None).
Proof.
  split; [reflexivity|].
  exact (@TGSRep_undecrypted_is_rejected toy_decoders toys (clock_at T0)
           cfg_udp (request_of alice) (reply alice x00 enc_good) _
           tgs_rep_octets None eq_refl).
Defined.

End MessagesExtra.
